(** * The discriminator plugin: statement rewriting for INSERT and SELECT

    A shallow embedding of [src/discriminator.ts].  The file defines a
    transformer, [DiscriminatorTransformer], which overrides two hooks of the
    host query builder's [OperationNodeTransformer] (the hook for INSERT
    statements and the hook for SELECT statements), and a plugin,
    [DiscriminatorPlugin], which runs one transformer per configured
    discriminator.

    The statement tree is the host's.  Its node shapes are written here as
    records and inductive types with exactly the fields the transformer reads
    or builds; everything else a node carries is kept in an opaque field that
    the object spread [{...node, f: v}] copies along.  The host's default
    traversal ([super.transformInsertQuery], [super.transformSelectQuery]) and
    the table matcher ([TableMatcher.test]) are not part of the file and are
    taken as parameters of the development. *)

From Stdlib Require Import String List Bool Lia.
Import ListNotations.

Set Implicit Arguments.
Open Scope string_scope.
Open Scope list_scope.

(** ** Calls that may throw *)

Inductive Error : Type :=
| mkError (message : string).

Inductive Outcome (A : Type) : Type :=
| Returned (a : A)
| Thrown (e : Error).

Arguments Returned {A} a.
Arguments Thrown {A} e.

Definition bind {A B : Type} (c : Outcome A) (k : A -> Outcome B) : Outcome B :=
  match c with
  | Returned a => k a
  | Thrown e => Thrown e
  end.

Declare Scope outcome_scope.
Delimit Scope outcome_scope with outcome.
Notation "x <- c ;; k" := (bind c (fun x => k))
  (at level 100, c at next level, right associativity) : outcome_scope.
Open Scope outcome_scope.

(** The one error the transformer throws (line 28 of the source). *)
Definition UnsupportedConstruct : Error :=
  mkError "This type of ValuesNode is not supported by the DiscriminatorPlugin.".

(** [a ?? b] on an optional value. *)
Definition nullish {A : Type} (a : option A) (b : A) : A :=
  match a with
  | Some x => x
  | None => b
  end.

(** ** Node shapes without payload *)

Record IdentifierNode : Type := { id_name : string }.

Record ColumnNode : Type := { col_column : IdentifierNode }.

Record SchemableIdentifierNode : Type :=
  { sid_identifier : IdentifierNode;
    sid_schema : option IdentifierNode }.

Record TableNode : Type := { tbl_table : SchemableIdentifierNode }.

Record ReferenceNode : Type :=
  { ref_table : option TableNode;
    ref_column : ColumnNode }.

Record OperatorNode : Type := { op_operator : string }.

(** The entry of [fromTables] built at lines 62-65. *)
Record FromTable : Type :=
  { ft_table : string;
    ft_schema : option string }.

Section Transformer.

(** [Value] stands for the values of type [unknown] a discriminator maps its
    columns to; [Host] for every part of the host's tree that the
    transformer neither inspects nor builds; [TableMatch] for the table
    pattern handed to [TableMatcher]. *)
Variables Value Host TableMatch : Type.

(** ** Node shapes with payload *)

Record ValueNode : Type := { val_value : Value }.

Inductive FilterOperand : Type :=
| ReferenceOperand (r : ReferenceNode)
| ValueOperand (v : ValueNode)
| HostOperand (h : Host).

Inductive FilterExpressionNode : Type :=
| FilterNode (left : FilterOperand) (op : OperatorNode) (right : FilterOperand)
| AndNode (left right : FilterExpressionNode)
| OrNode (left right : FilterExpressionNode)
| HostFilter (h : Host).

Record WhereNode : Type := { where_where : FilterExpressionNode }.

(** The alias of an [AliasNode] is an identifier or a raw fragment. *)
Inductive AliasName : Type :=
| AliasIdentifier (i : IdentifierNode)
| AliasRaw (h : Host).

(** What an [AliasNode] renames: a table, or any other host expression. *)
Inductive AliasTarget : Type :=
| AliasedTable (t : TableNode)
| AliasedHost (h : Host).

Record AliasNode : Type :=
  { alias_node : AliasTarget;
    alias_alias : AliasName }.

(** An item of the FROM list. *)
Inductive TableExpressionNode : Type :=
| FromTableNode (t : TableNode)
| FromAliasNode (a : AliasNode).

Record FromNode : Type := { from_froms : list TableExpressionNode }.

Record SelectQueryNode : Type :=
  { sel_from : FromNode;
    sel_where : option WhereNode;
    sel_rest : Host }.

(** The value source of an INSERT: the literal [ValuesNode], or any other
    node kind. *)
Inductive InsertValues : Type :=
| ValuesNode (rows : Host)
| HostValues (h : Host).

Record OnConflictNode : Type :=
  { oc_columns : option (list ColumnNode);
    oc_rest : Host }.

Record InsertQueryNode : Type :=
  { ins_into : TableNode;
    ins_values : option InsertValues;
    ins_onConflict : option OnConflictNode;
    ins_rest : Host }.

(** ** Configuration *)

(** A [Record<string, unknown>], kept as the list of its [key, value] pairs
    in the order [Object.entries] yields them. *)
Definition JsRecord : Type := list (string * Value).

Definition Object_entries (r : JsRecord) : list (string * Value) := r.

(** The statement a column factory is called with. *)
Inductive QueryNode : Type :=
| OfInsert (i : InsertQueryNode)
| OfSelect (s : SelectQueryNode).

Inductive ValueOrFactory : Type :=
| PlainValue (r : JsRecord)
| Factory (f : QueryNode -> JsRecord).

Definition callOrGet (v : ValueOrFactory) (arg : QueryNode) : JsRecord :=
  match v with
  | PlainValue r => r
  | Factory f => f arg
  end.

Record Discriminator : Type :=
  { table : TableMatch;
    columns : ValueOrFactory }.

Record DiscriminatorTransformerConfig : Type :=
  { discriminator : Discriminator;
    throwOnUnsupported : option bool }.

(** ** Collaborators *)

(** [new TableMatcher(m).test(name, schema)]. *)
Variable TableMatcher_test : TableMatch -> string -> option string -> bool.

(** The inherited hooks.  They rebuild the statement from its transformed
    children, and they throw when the transformation of a child throws. *)
Variable super_transformInsertQuery :
  DiscriminatorTransformerConfig -> InsertQueryNode -> Outcome InsertQueryNode.
Variable super_transformSelectQuery :
  DiscriminatorTransformerConfig -> SelectQueryNode -> Outcome SelectQueryNode.
(** The inherited treatment of every other kind of root node. *)
Variable super_transformHost :
  DiscriminatorTransformerConfig -> Host -> Outcome Host.

(** ** DiscriminatorTransformer *)

Definition tableMatcher (config : DiscriminatorTransformerConfig)
  : string -> option string -> bool :=
  TableMatcher_test (table (discriminator config)).

(** [node.values?.kind !== "ValuesNode"] is the negation of this test. *)
Definition isValuesNode (values : option InsertValues) : bool :=
  match values with
  | Some (ValuesNode _) => true
  | Some (HostValues _) => false
  | None => false
  end.

(** The column node built at lines 43-49. *)
Definition columnNode (column : string) : ColumnNode :=
  {| col_column := {| id_name := column |} |}.

Definition transformInsertQuery (config : DiscriminatorTransformerConfig)
    (originalNode : InsertQueryNode) : Outcome InsertQueryNode :=
  node <- super_transformInsertQuery config originalNode ;;
  if negb (tableMatcher config
             (id_name (sid_identifier (tbl_table (ins_into node))))
             (option_map id_name (sid_schema (tbl_table (ins_into node)))))
  then Returned node
  else if negb (isValuesNode (ins_values node))
  then
    if nullish (throwOnUnsupported config) true
    then Thrown UnsupportedConstruct
    else Returned node
  else
    Returned
      {| ins_into := ins_into node;
         ins_values := ins_values node;
         ins_onConflict :=
           match ins_onConflict node with
           | None => None
           | Some onConflict =>
               Some
                 {| oc_columns :=
                      Some (nullish (oc_columns onConflict) []
                            ++ map (fun entry => columnNode (fst entry))
                                 (Object_entries
                                    (callOrGet (columns (discriminator config))
                                       (OfInsert node))));
                    oc_rest := oc_rest onConflict |}
           end;
         ins_rest := ins_rest node |}.

(** [froms.flatMap(...)] of lines 60-74: a direct table reference yields
    its name and schema, an aliased item yields nothing on either branch. *)
Definition fromTables (froms : list TableExpressionNode) : list FromTable :=
  flat_map
    (fun from =>
       match from with
       | FromTableNode t =>
           [ {| ft_table := id_name (sid_identifier (tbl_table t));
                ft_schema := option_map id_name (sid_schema (tbl_table t)) |} ]
       | FromAliasNode a =>
           match alias_alias a with
           | AliasIdentifier _ => []
           | AliasRaw _ => []
           end
       end)
    froms.

(** The equality filter of lines 81-121. *)
Definition eqNode (t : FromTable) (column : string) (value : Value)
  : FilterExpressionNode :=
  FilterNode
    (ReferenceOperand
       {| ref_table :=
            Some
              {| tbl_table :=
                   {| sid_identifier := {| id_name := ft_table t |};
                      sid_schema :=
                        match ft_schema t with
                        | Some schema => Some {| id_name := schema |}
                        | None => None
                        end |} |};
          ref_column := columnNode column |})
    {| op_operator := "=" |}
    (ValueOperand {| val_value := value |}).

(** The list [eqNodes] of lines 75-125.  The filter under a WHERE node is an
    object, hence truthy: the test [node.where?.where ? ... : ...] asks
    whether the statement has a WHERE node. *)
Definition eqNodes (config : DiscriminatorTransformerConfig)
    (node : SelectQueryNode) : list FilterExpressionNode :=
  flat_map
    (fun t =>
       if negb (tableMatcher config (ft_table t) (ft_schema t))
       then []
       else
         map (fun entry => eqNode t (fst entry) (snd entry))
           (Object_entries
              (callOrGet (columns (discriminator config)) (OfSelect node))))
    (fromTables (from_froms (sel_from node)))
  ++ match sel_where node with
     | Some w => [where_where w]
     | None => []
     end.

(** The callback of [reduce] at lines 126-135. *)
Definition andStep (prev : option FilterExpressionNode)
    (current : FilterExpressionNode) : option FilterExpressionNode :=
  match prev with
  | None => Some current
  | Some p => Some (AndNode p current)
  end.

Definition transformSelectQuery (config : DiscriminatorTransformerConfig)
    (originalNode : SelectQueryNode) : Outcome SelectQueryNode :=
  node <- super_transformSelectQuery config originalNode ;;
  match fold_left andStep (eqNodes config node) None with
  | None => Returned node
  | Some filterNode =>
      Returned
        {| sel_from := sel_from node;
           sel_where := Some {| where_where := filterNode |};
           sel_rest := sel_rest node |}
  end.


(** ** DiscriminatorPlugin *)

(** The node handed to the plugin: a statement of one of the two kinds the
    transformer overrides, or any other root node of the host. *)
Inductive RootOperationNode : Type :=
| InsertQuery (i : InsertQueryNode)
| SelectQuery (s : SelectQueryNode)
| HostRoot (h : Host).

(** Modelled from the spec: the inherited [transformNode] of the host's
    [OperationNodeTransformer], which is not part of the file.  It dispatches
    on the kind of the node and calls the hook of that kind, so an INSERT
    reaches [transformInsertQuery] and a SELECT reaches
    [transformSelectQuery], the two hooks the transformer overrides; every
    other kind keeps the inherited treatment. *)
Definition transformNode (config : DiscriminatorTransformerConfig)
    (node : RootOperationNode) : Outcome RootOperationNode :=
  match node with
  | InsertQuery i => i' <- transformInsertQuery config i ;; Returned (InsertQuery i')
  | SelectQuery s => s' <- transformSelectQuery config s ;; Returned (SelectQuery s')
  | HostRoot h => h' <- super_transformHost config h ;; Returned (HostRoot h')
  end.

Record DiscriminatorPluginOptions : Type :=
  { tables : list Discriminator;
    options_throwOnUnsupported : option bool }.

(** The constructor of the plugin (lines 158-162). *)
Definition transformers (options : DiscriminatorPluginOptions)
  : list DiscriminatorTransformerConfig :=
  map
    (fun d =>
       {| discriminator := d;
          throwOnUnsupported := options_throwOnUnsupported options |})
    (tables options).

Record PluginTransformQueryArgs : Type :=
  { args_node : RootOperationNode;
    args_queryId : Host }.

(** [this.transformers.reduce((node, transformer) =>
    transformer.transformNode(node), args.node)]: a throwing call ends the
    reduction. *)
Definition transformQuery (options : DiscriminatorPluginOptions)
    (args : PluginTransformQueryArgs) : Outcome RootOperationNode :=
  fold_left
    (fun acc transformer => node <- acc ;; transformNode transformer node)
    (transformers options)
    (Returned (args_node args)).

Record PluginTransformResultArgs (QueryResult : Type) : Type :=
  { args_result : QueryResult;
    result_queryId : Host }.

(** The value the promise returned by the [async] method resolves to. *)
Definition transformResult (QueryResult : Type)
    (args : PluginTransformResultArgs QueryResult) : QueryResult :=
  args_result args.

(** ** Vocabulary of the specification *)

(** [AndChain l f]: [f] is the left-associated conjunction of the non-empty
    list [l], that is [((l1 AND l2) AND l3) ... AND ln]. *)
Inductive AndChain : list FilterExpressionNode -> FilterExpressionNode -> Prop :=
| AndChain_one (p : FilterExpressionNode) : AndChain [p] p
| AndChain_snoc (ps : list FilterExpressionNode) (c q : FilterExpressionNode) :
    AndChain ps c -> AndChain (ps ++ [q]) (AndNode c q).

(** The table references of the FROM list that the matcher accepts. *)
Definition matchingTables (config : DiscriminatorTransformerConfig)
    (node : SelectQueryNode) : list FromTable :=
  filter (fun t => tableMatcher config (ft_table t) (ft_schema t))
    (fromTables (from_froms (sel_from node))).

(** The synthesized equality predicates: for each matching table in the order
    of the FROM list, one predicate per entry of the column mapping. *)
Definition synthesized (config : DiscriminatorTransformerConfig)
    (node : SelectQueryNode) : list FilterExpressionNode :=
  concat
    (map
       (fun t =>
          map (fun entry => eqNode t (fst entry) (snd entry))
            (callOrGet (columns (discriminator config)) (OfSelect node)))
       (matchingTables config node)).

(** The operands of a conjunction, left to right. *)
Fixpoint conjuncts (f : FilterExpressionNode) : list FilterExpressionNode :=
  match f with
  | AndNode l r => conjuncts l ++ conjuncts r
  | _ => [f]
  end.

(** The filter a statement carries, if any. *)
Definition whereOf (node : SelectQueryNode) : option FilterExpressionNode :=
  option_map where_where (sel_where node).

(** The conjuncts of an optional filter; none when there is no filter. *)
Definition conjunctsOf (w : option FilterExpressionNode)
  : list FilterExpressionNode :=
  match w with
  | Some f => conjuncts f
  | None => []
  end.

(** The matcher's verdict on the target table of an INSERT (the test of
    line 23). *)
Definition insertTargetMatches (config : DiscriminatorTransformerConfig)
    (node : InsertQueryNode) : bool :=
  tableMatcher config
    (id_name (sid_identifier (tbl_table (ins_into node))))
    (option_map id_name (sid_schema (tbl_table (ins_into node)))).

Definition isAlias (from : TableExpressionNode) : bool :=
  match from with
  | FromAliasNode _ => true
  | FromTableNode _ => false
  end.

(** The rules applied one after the other, each to the output of the one
    before it. *)
Fixpoint foldRules (rules : list DiscriminatorTransformerConfig)
    (node : RootOperationNode) : Outcome RootOperationNode :=
  match rules with
  | [] => Returned node
  | rule :: rest => node' <- transformNode rule node ;; foldRules rest node'
  end.


(** ** The predicates, spelled out

    The definitions below say what the discrimination of a SELECT is in terms
    of the statement alone; they use neither [fromTables] nor [eqNode]. *)



(** [t.column = value]: the column named [column] of the table [t], compared
    by the operator "=" with the value [value]. *)
Definition equalityFilter (t : TableNode) (column : string) (value : Value)
  : FilterExpressionNode :=
  FilterNode
    (ReferenceOperand
       {| ref_table := Some t;
          ref_column := {| col_column := {| id_name := column |} |} |})
    {| op_operator := "=" |}
    (ValueOperand {| val_value := value |}).



End Transformer.

Arguments ReferenceOperand {Value Host} r.
Arguments ValueOperand {Value Host} v.
Arguments HostOperand {Value Host} h.
Arguments HostFilter {Value Host} h.
Arguments AliasIdentifier {Host} i.
Arguments AliasedTable {Host} t.
Arguments FromTableNode {Host} t.
Arguments OfInsert {Value Host} i.
Arguments PlainValue {Value Host} r.
Arguments eqNode {Value Host} t column value.
Arguments InsertQuery {Value Host} i.
Arguments HostRoot {Value Host} h.
Arguments equalityFilter {Value Host} t column value.

(** ** A table matcher *)

(** Modelled from the spec: the table matcher of [./matcher], which is not
    part of the file.  A pattern has a name matcher and an optional schema
    matcher; a matcher is an exact string, compared case-sensitively, or a
    supplied matching function (wildcard or predicate).  A pattern without a
    schema matcher accepts any schema, also none; a pattern with one is not
    satisfied by a table without schema. *)
Inductive NameMatch : Type :=
| ExactName (expected : string)
| MatchingName (accepts : string -> bool).

Record TablePattern : Type :=
  { pattern_name : NameMatch;
    pattern_schema : option NameMatch }.

Definition nameMatches (m : NameMatch) (candidate : string) : bool :=
  match m with
  | ExactName expected => String.eqb expected candidate
  | MatchingName accepts => accepts candidate
  end.

Definition TablePattern_test (p : TablePattern) (tableName : string)
    (schemaName : option string) : bool :=
  nameMatches (pattern_name p) tableName
  && match pattern_schema p with
     | None => true
     | Some m =>
         match schemaName with
         | Some s => nameMatches m s
         | None => false
         end
     end.

(** ** Concrete statements

    Discriminator values and opaque host fragments are strings here.  None of
    the statements below has a statement among its children, so the inherited
    hooks rebuild a node equal to the one they are given. *)

Definition rebuildInsert
    (_ : DiscriminatorTransformerConfig string string TablePattern)
    (node : InsertQueryNode string) : Outcome (InsertQueryNode string) :=
  Returned node.

Definition rebuildSelect
    (_ : DiscriminatorTransformerConfig string string TablePattern)
    (node : SelectQueryNode string string)
  : Outcome (SelectQueryNode string string) :=
  Returned node.

Definition rebuildHost
    (_ : DiscriminatorTransformerConfig string string TablePattern)
    (node : string) : Outcome string :=
  Returned node.

Definition tableNamed (tableName : string) : TableNode :=
  {| tbl_table :=
       {| sid_identifier := {| id_name := tableName |}; sid_schema := None |} |}.

(** The rule [{ table: "orders", columns: { tenant_id: "42" } }]. *)
Definition ordersRule : Discriminator string string TablePattern :=
  {| table := {| pattern_name := ExactName "orders"; pattern_schema := None |};
     columns := PlainValue [("tenant_id", "42")] |}.

(** A rule on the same table with two columns. *)
Definition ordersRule2 : Discriminator string string TablePattern :=
  {| table := {| pattern_name := ExactName "orders"; pattern_schema := None |};
     columns := PlainValue [("tenant_id", "42"); ("deleted", "false")] |}.

Definition configOf (d : Discriminator string string TablePattern)
    (throws : option bool)
  : DiscriminatorTransformerConfig string string TablePattern :=
  {| discriminator := d; throwOnUnsupported := throws |}.

(** [SELECT ... FROM orders WHERE <paid>]. *)
Definition selectOrdersPaid : SelectQueryNode string string :=
  {| sel_from := {| from_froms := [FromTableNode (tableNamed "orders")] |};
     sel_where := Some {| where_where := HostFilter "paid" |};
     sel_rest := "selections" |}.

(** The table reference [orders] as [fromTables] records it. *)
Definition ordersRef : FromTable :=
  {| ft_table := "orders"; ft_schema := None |}.

(** [selectOrdersPaid] after one run of the SELECT hook for [ordersRule]. *)
Definition selectOrdersPaidOnce : SelectQueryNode string string :=
  {| sel_from := {| from_froms := [FromTableNode (tableNamed "orders")] |};
     sel_where :=
       Some {| where_where :=
                 AndNode (eqNode ordersRef "tenant_id" "42") (HostFilter "paid") |};
     sel_rest := "selections" |}.

(** A rule on the table [orders] for the column [region]. *)
Definition regionRule : Discriminator string string TablePattern :=
  {| table := {| pattern_name := ExactName "orders"; pattern_schema := None |};
     columns := PlainValue [("region", "eu")] |}.

(** [SELECT ... FROM orders AS o WHERE <paid>]. *)
Definition selectOrdersAliased : SelectQueryNode string string :=
  {| sel_from :=
       {| from_froms :=
            [FromAliasNode
               {| alias_node := AliasedTable (tableNamed "orders");
                  alias_alias := AliasIdentifier {| id_name := "o" |} |}] |};
     sel_where := Some {| where_where := HostFilter "paid" |};
     sel_rest := "selections" |}.

(** [SELECT ... FROM customers]. *)
Definition selectCustomers : SelectQueryNode string string :=
  {| sel_from := {| from_froms := [FromTableNode (tableNamed "customers")] |};
     sel_where := None;
     sel_rest := "selections" |}.

(** [INSERT INTO orders ... VALUES ... ON CONFLICT (id, sku) <action>]. *)
Definition upsertOrders : InsertQueryNode string :=
  {| ins_into := tableNamed "orders";
     ins_values := Some (ValuesNode "rows");
     ins_onConflict :=
       Some {| oc_columns := Some [columnNode "id"; columnNode "sku"];
               oc_rest := "do update" |};
     ins_rest := "columns" |}.

(** [INSERT INTO orders ... VALUES ...]. *)
Definition insertOrders : InsertQueryNode string :=
  {| ins_into := tableNamed "orders";
     ins_values := Some (ValuesNode "rows");
     ins_onConflict := None;
     ins_rest := "columns" |}.

(** [INSERT INTO orders ... SELECT ...]: the value source is not a
    [ValuesNode]. *)
Definition insertOrdersFromSelect : InsertQueryNode string :=
  {| ins_into := tableNamed "orders";
     ins_values := Some (HostValues "select");
     ins_onConflict := None;
     ins_rest := "columns" |}.


(** [INSERT INTO customers ... SELECT ...]. *)
Definition insertCustomersFromSelect : InsertQueryNode string :=
  {| ins_into := tableNamed "customers";
     ins_values := Some (HostValues "select");
     ins_onConflict := None;
     ins_rest := "columns" |}.


(** [INSERT INTO orders ... VALUES ... ON CONFLICT ON CONSTRAINT <name>
    <action>]: the conflict clause has no [columns] field. *)
Definition upsertOrdersOnConstraint : InsertQueryNode string :=
  {| ins_into := tableNamed "orders";
     ins_values := Some (ValuesNode "rows");
     ins_onConflict :=
       Some {| oc_columns := None; oc_rest := "on constraint, do update" |};
     ins_rest := "columns" |}.

(** [upsertOrders] after one run of the INSERT hook for [ordersRule]. *)
Definition upsertOrdersOnce : InsertQueryNode string :=
  {| ins_into := tableNamed "orders";
     ins_values := Some (ValuesNode "rows");
     ins_onConflict :=
       Some {| oc_columns :=
                 Some [columnNode "id"; columnNode "sku";
                       columnNode "tenant_id"];
               oc_rest := "do update" |};
     ins_rest := "columns" |}.

(** A rule on the table [orders] whose column mapping is empty. *)
Definition emptyRule : Discriminator string string TablePattern :=
  {| table := {| pattern_name := ExactName "orders"; pattern_schema := None |};
     columns := PlainValue [] |}.

(** A rule on the table [customers]. *)
Definition customersRule : Discriminator string string TablePattern :=
  {| table := {| pattern_name := ExactName "customers"; pattern_schema := None |};
     columns := PlainValue [("owner", "7")] |}.


(** [SELECT ... FROM orders], without WHERE. *)
Definition selectOrders : SelectQueryNode string string :=
  {| sel_from := {| from_froms := [FromTableNode (tableNamed "orders")] |};
     sel_where := None;
     sel_rest := "selections" |}.

Definition optionsOf (rules : list (Discriminator string string TablePattern))
    (throws : option bool)
  : DiscriminatorPluginOptions string string TablePattern :=
  {| tables := rules; options_throwOnUnsupported := throws |}.


(** ** A SELECT on several tables *)

(** The table [shop.orders]. *)
Definition shopOrders : TableNode :=
  {| tbl_table :=
       {| sid_identifier := {| id_name := "orders" |};
          sid_schema := Some {| id_name := "shop" |} |} |}.

(** The table [order_items]. *)
Definition orderItems : TableNode :=
  {| tbl_table :=
       {| sid_identifier := {| id_name := "order_items" |};
          sid_schema := None |} |}.

(** The table [customers]. *)
Definition customersTable : TableNode :=
  {| tbl_table :=
       {| sid_identifier := {| id_name := "customers" |};
          sid_schema := None |} |}.

(** The rule [{ table: name => name === "orders" || name === "order_items",
    columns: { tenant_id: "42", deleted: "false" } }]. *)
Definition shopRule : Discriminator string string TablePattern :=
  {| table :=
       {| pattern_name :=
            MatchingName
              (fun tableName =>
                 String.eqb tableName "orders"
                 || String.eqb tableName "order_items");
          pattern_schema := None |};
     columns := PlainValue [("tenant_id", "42"); ("deleted", "false")] |}.

(** [SELECT ... FROM shop.orders, customers, orders AS o, order_items
    WHERE <paid>]. *)
Definition selectShop : SelectQueryNode string string :=
  {| sel_from :=
       {| from_froms :=
            [FromTableNode shopOrders;
             FromTableNode customersTable;
             FromAliasNode
               {| alias_node := AliasedTable (tableNamed "orders");
                  alias_alias := AliasIdentifier {| id_name := "o" |} |};
             FromTableNode orderItems] |};
     sel_where := Some {| where_where := HostFilter "paid" |};
     sel_rest := "selections" |}.

(** ** Statements with a statement inside *)

(** An opaque part of the host's tree: a fragment with no statement inside,
    or a SELECT used as an expression, such as the value source of
    [INSERT ... SELECT]. *)
#[local] Unset Elimination Schemes.
Inductive Fragment : Type :=
| Plain (text : string)
| NestedSelect (query : SelectQueryNode string Fragment).
#[local] Set Elimination Schemes.

(** The inherited SELECT hook on a SELECT none of whose children is a
    statement. *)
Definition leafSelect
    (_ : DiscriminatorTransformerConfig string Fragment TablePattern)
    (node : SelectQueryNode string Fragment)
  : Outcome (SelectQueryNode string Fragment) :=
  Returned node.

(** Modelled from the spec: the inherited INSERT hook of the host's
    [OperationNodeTransformer], which is not part of the file, on an INSERT
    whose only child holding a statement is its value source.  The default
    traversal rebuilds the node from its transformed children, bottom-up; a
    child that is a SELECT goes through the SELECT hook of the same
    transformer, as every SELECT node does. *)
Definition traverseInsert
    (config : DiscriminatorTransformerConfig string Fragment TablePattern)
    (node : InsertQueryNode Fragment) : Outcome (InsertQueryNode Fragment) :=
  match ins_values node with
  | Some (HostValues (NestedSelect query)) =>
      query' <- transformSelectQuery TablePattern_test leafSelect config query ;;
      Returned
        {| ins_into := ins_into node;
           ins_values := Some (HostValues (NestedSelect query'));
           ins_onConflict := ins_onConflict node;
           ins_rest := ins_rest node |}
  | _ => Returned node
  end.

(** The rule [{ table: "orders", columns: { tenant_id: "42" } }] for
    statements with a statement inside. *)
Definition nestedOrdersRule (throws : option bool)
  : DiscriminatorTransformerConfig string Fragment TablePattern :=
  {| discriminator :=
       {| table :=
            {| pattern_name := ExactName "orders"; pattern_schema := None |};
          columns := PlainValue [("tenant_id", "42")] |};
     throwOnUnsupported := throws |}.

(** [SELECT ... FROM orders], used as a value source. *)
Definition ordersSource : SelectQueryNode string Fragment :=
  {| sel_from := {| from_froms := [FromTableNode (tableNamed "orders")] |};
     sel_where := None;
     sel_rest := Plain "selections" |}.

(** [SELECT ... FROM orders WHERE orders.tenant_id = "42"]. *)
Definition ordersSourceFiltered : SelectQueryNode string Fragment :=
  {| sel_from := {| from_froms := [FromTableNode (tableNamed "orders")] |};
     sel_where :=
       Some
         {| where_where :=
              FilterNode
                (ReferenceOperand
                   {| ref_table := Some (tableNamed "orders");
                      ref_column :=
                        {| col_column := {| id_name := "tenant_id" |} |} |})
                {| op_operator := "=" |}
                (ValueOperand {| val_value := "42" |}) |};
     sel_rest := Plain "selections" |}.

(** [INSERT INTO <target> ... <source>], the source being a SELECT. *)
Definition insertFromSelect (target : string)
    (source : SelectQueryNode string Fragment) : InsertQueryNode Fragment :=
  {| ins_into := tableNamed target;
     ins_values := Some (HostValues (NestedSelect source));
     ins_onConflict := None;
     ins_rest := Plain "columns" |}.

(** * Properties

    Both hooks start with the inherited traversal (lines 22 and 59) and work
    on the node it returns.  The properties below are stated for that node,
    named [node], and hold for every inherited traversal; a traversal that
    changes no child of the statement returns the statement itself, as in the
    concrete runs at the end. *)

Section Properties.

Variables Value Host TableMatch : Type.
Variable TableMatcher_test : TableMatch -> string -> option string -> bool.
Variable super_transformInsertQuery :
  DiscriminatorTransformerConfig Value Host TableMatch ->
  InsertQueryNode Host -> Outcome (InsertQueryNode Host).
Variable super_transformSelectQuery :
  DiscriminatorTransformerConfig Value Host TableMatch ->
  SelectQueryNode Value Host -> Outcome (SelectQueryNode Value Host).
Variable super_transformHost :
  DiscriminatorTransformerConfig Value Host TableMatch -> Host -> Outcome Host.


(** ** The conjunction built by [reduce] *)



Lemma AndChain_cons_snoc (p q : FilterExpressionNode Value Host) (l : list (FilterExpressionNode Value Host)) (c : FilterExpressionNode Value Host) :
  AndChain (p :: l) c -> AndChain (p :: l ++ [q]) (AndNode c q).
Proof.
  intros H. change (p :: l ++ [q]) with ((p :: l) ++ [q]).
  now constructor.
Qed.

Lemma reduce_from (l : list (FilterExpressionNode Value Host)) (p : FilterExpressionNode Value Host) :
  exists c, fold_left (@andStep Value Host) l (Some p) = Some c
            /\ AndChain (p :: l) c.
Proof.
  induction l as [| q l IH] using rev_ind.
  - exists p; split; [reflexivity | constructor].
  - destruct IH as [c [Hc Hchain]].
    exists (AndNode c q); split.
    + rewrite fold_left_app, Hc; reflexivity.
    + now apply AndChain_cons_snoc.
Qed.

Lemma reduce_chain (l : list (FilterExpressionNode Value Host)) :
  l <> [] ->
  exists c, fold_left (@andStep Value Host) l None = Some c /\ AndChain l c.
Proof.
  destruct l as [| p l]; [congruence | intros _].
  exact (reduce_from l p).
Qed.


Lemma AndChain_conjuncts (l : list (FilterExpressionNode Value Host)) (c : FilterExpressionNode Value Host) :
  AndChain l c -> conjuncts c = flat_map (@conjuncts Value Host) l.
Proof.
  induction 1 as [p | ps c q H IH].
  - simpl; now rewrite app_nil_r.
  - rewrite flat_map_app; simpl. now rewrite IH, app_nil_r.
Qed.

(** ** The list of filters to conjoin *)

Lemma flat_map_guard (A B : Type) (keep : A -> bool) (f : A -> list B)
    (l : list A) :
  flat_map (fun a => if negb (keep a) then [] else f a) l
  = concat (map f (filter keep l)).
Proof.
  induction l as [| a l IH]; simpl; [reflexivity |].
  destruct (keep a); simpl; now rewrite IH.
Qed.

Lemma eqNodes_synthesized (config : DiscriminatorTransformerConfig Value Host TableMatch) (node : SelectQueryNode Value Host) :
  eqNodes TableMatcher_test config node
  = synthesized TableMatcher_test config node
    ++ match sel_where node with
       | Some w => [where_where w]
       | None => []
       end.
Proof.
  unfold eqNodes, synthesized, matchingTables, Object_entries.
  now rewrite flat_map_guard.
Qed.

Lemma eqNode_conjuncts (t : FromTable) (entries : list (string * Value)) :
  flat_map (@conjuncts Value Host)
    (map (fun entry => eqNode t (fst entry) (snd entry)) entries)
  = map (fun entry => eqNode t (fst entry) (snd entry)) entries.
Proof.
  induction entries as [| e es IH]; simpl; [reflexivity | now rewrite IH].
Qed.

Lemma synthesized_are_conjuncts (config : DiscriminatorTransformerConfig Value Host TableMatch)
    (node : SelectQueryNode Value Host) :
  flat_map (@conjuncts Value Host) (synthesized TableMatcher_test config node)
  = synthesized TableMatcher_test config node.
Proof.
  unfold synthesized.
  induction (matchingTables TableMatcher_test config node) as [| t l IH];
    simpl; [reflexivity |].
  rewrite flat_map_app, IH; f_equal.
  apply eqNode_conjuncts.
Qed.

Lemma whereNode_eta (w : WhereNode Value Host) :
  {| where_where := where_where w |} = w.
Proof. now destruct w. Qed.

Lemma selectNode_eta (node : SelectQueryNode Value Host) :
  {| sel_from := sel_from node;
     sel_where := sel_where node;
     sel_rest := sel_rest node |} = node.
Proof. now destruct node. Qed.

Lemma insertNode_eta (node : InsertQueryNode Host) :
  {| ins_into := ins_into node;
     ins_values := ins_values node;
     ins_onConflict := ins_onConflict node;
     ins_rest := ins_rest node |} = node.
Proof. now destruct node. Qed.

(** ** What the two hooks compute once the inherited traversal has returned *)

Lemma transformSelectQuery_returned
    (config : DiscriminatorTransformerConfig Value Host TableMatch)
    (originalNode node : SelectQueryNode Value Host) :
  super_transformSelectQuery config originalNode = Returned node ->
  transformSelectQuery TableMatcher_test super_transformSelectQuery config
    originalNode
  = match fold_left (@andStep Value Host)
            (synthesized TableMatcher_test config node
             ++ match sel_where node with
                | Some w => [where_where w]
                | None => []
                end) None with
    | None => Returned node
    | Some filterNode =>
        Returned
          {| sel_from := sel_from node;
             sel_where := Some {| where_where := filterNode |};
             sel_rest := sel_rest node |}
    end.
Proof.
  intros Hsuper. unfold transformSelectQuery.
  rewrite Hsuper; unfold bind.
  now rewrite eqNodes_synthesized.
Qed.

Lemma transformInsertQuery_unmatched
    (config : DiscriminatorTransformerConfig Value Host TableMatch)
    (originalNode node : InsertQueryNode Host) :
  super_transformInsertQuery config originalNode = Returned node ->
  insertTargetMatches TableMatcher_test config node = false ->
  transformInsertQuery TableMatcher_test super_transformInsertQuery config
    originalNode = Returned node.
Proof.
  intros Hsuper Hm. unfold transformInsertQuery.
  rewrite Hsuper; unfold bind.
  unfold insertTargetMatches in Hm. now rewrite Hm.
Qed.

Lemma transformInsertQuery_unsupported
    (config : DiscriminatorTransformerConfig Value Host TableMatch)
    (originalNode node : InsertQueryNode Host) :
  super_transformInsertQuery config originalNode = Returned node ->
  insertTargetMatches TableMatcher_test config node = true ->
  isValuesNode (ins_values node) = false ->
  transformInsertQuery TableMatcher_test super_transformInsertQuery config
    originalNode
  = if nullish (throwOnUnsupported config) true
    then Thrown UnsupportedConstruct
    else Returned node.
Proof.
  intros Hsuper Hm Hv. unfold transformInsertQuery.
  rewrite Hsuper; unfold bind.
  unfold insertTargetMatches in Hm. now rewrite Hm, Hv.
Qed.

Lemma transformInsertQuery_literal
    (config : DiscriminatorTransformerConfig Value Host TableMatch)
    (originalNode node : InsertQueryNode Host) :
  super_transformInsertQuery config originalNode = Returned node ->
  insertTargetMatches TableMatcher_test config node = true ->
  isValuesNode (ins_values node) = true ->
  transformInsertQuery TableMatcher_test super_transformInsertQuery config
    originalNode
  = Returned
      {| ins_into := ins_into node;
         ins_values := ins_values node;
         ins_onConflict :=
           option_map
             (fun onConflict =>
                {| oc_columns :=
                     Some (nullish (oc_columns onConflict) []
                           ++ map (fun entry => columnNode (fst entry))
                                (callOrGet (columns (discriminator config))
                                   (OfInsert node)));
                   oc_rest := oc_rest onConflict |})
             (ins_onConflict node);
         ins_rest := ins_rest node |}.
Proof.
  intros Hsuper Hm Hv. unfold transformInsertQuery.
  rewrite Hsuper; unfold bind.
  unfold insertTargetMatches in Hm. rewrite Hm, Hv; simpl.
  unfold Object_entries. now destruct (ins_onConflict node).
Qed.

Lemma fold_rules (rules : list (DiscriminatorTransformerConfig Value Host TableMatch))
    (acc : Outcome (RootOperationNode Value Host)) :
  fold_left
    (fun acc transformer =>
       bind acc
         (transformNode TableMatcher_test super_transformInsertQuery
            super_transformSelectQuery super_transformHost transformer))
    rules acc
  = bind acc
      (foldRules TableMatcher_test super_transformInsertQuery
         super_transformSelectQuery super_transformHost rules).
Proof.
  revert acc; induction rules as [| rule rest IH]; intros acc; simpl.
  - now destruct acc.
  - rewrite IH. destruct acc as [node | e]; simpl; [| reflexivity].
    now destruct (transformNode _ _ _ _ rule node).
Qed.

(** ** SELECT *)

Lemma eqNode_of_table (t : TableNode) (column : string) (value : Value) :
  @eqNode Value Host
    {| ft_table := id_name (sid_identifier (tbl_table t));
       ft_schema := option_map id_name (sid_schema (tbl_table t)) |}
    column value
  = equalityFilter t column value.
Proof.
  destruct t as [[[tableName] [[schemaName] |]]]; reflexivity.
Qed.


(** C7.  The SELECT hook is not idempotent.  Let the hook turn [node] into
    [once], let the inherited traversal rebuild [once] as it is, and let the
    column mapping be the same for both statements.  When at least one
    predicate is synthesized, a second run returns a statement [twice] whose
    filter is the conjunction of the predicates followed by the filter of
    [once]: its conjuncts are the predicates, the predicates again, and the
    conjuncts of the original filter, where [once] has the predicates a
    single time; so [twice] differs from [once]. *)
Theorem select_twice_repeats_predicates
    (config : DiscriminatorTransformerConfig Value Host TableMatch)
    (originalNode node once : SelectQueryNode Value Host) :
  super_transformSelectQuery config originalNode = Returned node ->
  transformSelectQuery TableMatcher_test super_transformSelectQuery config
    originalNode = Returned once ->
  super_transformSelectQuery config once = Returned once ->
  callOrGet (columns (discriminator config)) (OfSelect once)
  = callOrGet (columns (discriminator config)) (OfSelect node) ->
  synthesized TableMatcher_test config node <> [] ->
  exists twice f1 f2,
    transformSelectQuery TableMatcher_test super_transformSelectQuery config
      once = Returned twice
    /\ whereOf once = Some f1
    /\ whereOf twice = Some f2
    /\ AndChain (synthesized TableMatcher_test config node ++ [f1]) f2
    /\ conjuncts f1
       = synthesized TableMatcher_test config node
         ++ conjunctsOf (whereOf node)
    /\ conjuncts f2
       = synthesized TableMatcher_test config node
         ++ synthesized TableMatcher_test config node
         ++ conjunctsOf (whereOf node)
    /\ twice <> once.
Proof.
  intros Hsuper Honce Hsuper' Hcols Hne.
  rewrite (transformSelectQuery_returned Hsuper) in Honce.
  set (P := synthesized TableMatcher_test config node) in *.
  set (wl := match sel_where node with
             | Some w => [where_where w]
             | None => []
             end) in *.
  destruct (@reduce_chain (P ++ wl)) as [f1 [Hf1 Hchain1]].
  { intros E; apply app_eq_nil in E as [E _]; contradiction. }
  rewrite Hf1 in Honce. injection Honce as Honce.
  assert (HP' : synthesized TableMatcher_test config once = P).
  { subst once P. unfold synthesized, matchingTables; simpl.
    simpl in Hcols. now rewrite Hcols. }
  assert (Hwl : flat_map (@conjuncts Value Host) wl = conjunctsOf (whereOf node)).
  { subst wl. unfold whereOf. destruct (sel_where node); simpl;
      [now rewrite app_nil_r | reflexivity]. }
  assert (Hc1 : conjuncts f1 = P ++ conjunctsOf (whereOf node)).
  { rewrite (AndChain_conjuncts Hchain1), flat_map_app, <- Hwl.
    subst P. now rewrite synthesized_are_conjuncts. }
  pose proof (transformSelectQuery_returned Hsuper') as Htwice.
  rewrite HP' in Htwice.
  assert (Hw1 : sel_where once = Some {| where_where := f1 |})
    by (now subst once).
  rewrite Hw1 in Htwice; simpl in Htwice.
  destruct (@reduce_chain (P ++ [f1])) as [f2 [Hf2 Hchain2]].
  { intros E; apply app_eq_nil in E as [E _]; contradiction. }
  rewrite Hf2 in Htwice.
  assert (Hc2 : conjuncts f2 = P ++ P ++ conjunctsOf (whereOf node)).
  { rewrite (AndChain_conjuncts Hchain2), flat_map_app; simpl.
    rewrite app_nil_r, Hc1. subst P.
    now rewrite synthesized_are_conjuncts. }
  eexists; exists f1, f2.
  split; [exact Htwice |].
  split; [unfold whereOf; now rewrite Hw1 |].
  split; [reflexivity |].
  split; [exact Hchain2 |].
  split; [exact Hc1 |].
  split; [exact Hc2 |].
  intros E. rewrite <- Honce in E. injection E as E.
  assert (Hlen : length (conjuncts f2) = length (conjuncts f1)) by now rewrite E.
  rewrite Hc1, Hc2 in Hlen. rewrite !length_app in Hlen.
  destruct P; [now apply Hne | simpl in Hlen; lia].
Qed.

(** C8.  An aliased item of the FROM list yields no table reference, also
    when it renames a table the matcher accepts: alone it gives the empty
    list, and anywhere in a FROM list it can be dropped without changing the
    table references or the synthesized predicates.  A SELECT whose FROM items are all aliased gets no
    synthesized predicate and is returned as the inherited traversal rebuilt
    it. *)
Theorem aliased_from_items_are_skipped
    (config : DiscriminatorTransformerConfig Value Host TableMatch) :
  (forall a : AliasNode Host, fromTables [FromAliasNode a] = [])
  /\ (forall (l1 l2 : list (TableExpressionNode Host)) (a : AliasNode Host),
        fromTables (l1 ++ FromAliasNode a :: l2) = fromTables (l1 ++ l2))
  /\ (forall (node node' : SelectQueryNode Value Host)
             (l1 l2 : list (TableExpressionNode Host)) (a : AliasNode Host),
        from_froms (sel_from node) = l1 ++ FromAliasNode a :: l2 ->
        from_froms (sel_from node') = l1 ++ l2 ->
        callOrGet (columns (discriminator config)) (OfSelect node)
        = callOrGet (columns (discriminator config)) (OfSelect node') ->
        synthesized TableMatcher_test config node
        = synthesized TableMatcher_test config node')
  /\ (forall originalNode node : SelectQueryNode Value Host,
        super_transformSelectQuery config originalNode = Returned node ->
        forallb (@isAlias Host) (from_froms (sel_from node)) = true ->
        synthesized TableMatcher_test config node = []
        /\ transformSelectQuery TableMatcher_test super_transformSelectQuery
             config originalNode = Returned node).
Proof.
  assert (Hone : forall a : AliasNode Host, fromTables [FromAliasNode a] = []).
  { intros a. unfold fromTables; simpl. now destruct (alias_alias a). }
  assert (Hdrop : forall (l1 l2 : list (TableExpressionNode Host))
                         (a : AliasNode Host),
             fromTables (l1 ++ FromAliasNode a :: l2) = fromTables (l1 ++ l2)).
  { intros l1 l2 a. unfold fromTables in *.
    rewrite !flat_map_app. f_equal.
    change (FromAliasNode a :: l2) with ([FromAliasNode a] ++ l2).
    now rewrite flat_map_app, Hone. }
  split; [exact Hone | split; [exact Hdrop | split]].
  - intros node node' l1 l2 a Hfrom Hfrom' Hcols.
    unfold synthesized, matchingTables.
    now rewrite Hfrom, Hfrom', Hdrop, Hcols.
  - intros originalNode node Hsuper Hall.
    assert (Hft : fromTables (from_froms (sel_from node)) = []).
    { induction (from_froms (sel_from node)) as [| from l IH];
        [reflexivity |].
      simpl in Hall. apply andb_prop in Hall as [Hfrom Hl].
      destruct from as [t | a]; [discriminate Hfrom |].
      change (FromAliasNode a :: l) with ([] ++ FromAliasNode a :: l).
      unfold fromTables in *. rewrite flat_map_app. simpl.
      destruct (alias_alias a); simpl; now apply IH. }
    assert (HP : synthesized TableMatcher_test config node = []).
    { unfold synthesized, matchingTables. now rewrite Hft. }
    split; [exact HP |].
    rewrite (transformSelectQuery_returned Hsuper), HP; simpl.
    destruct node as [f [w |] r]; simpl; [| reflexivity].
    now destruct w.
Qed.

(** ** INSERT *)


(** C3.  Let [node] be the INSERT statement as the inherited traversal hands
    it to the hook.  On a table the matcher accepts and with a value source
    that is not the literal [ValuesNode], the hook throws the
    unsupported-construct error when [throwOnUnsupported] is true or unset,
    and returns [node] when it is false.  The hook throws nothing else and in
    no other case, and the SELECT hook does not throw at all once the
    inherited traversal has returned.  A statement nested in the INSERT has
    by then been through its own hook, so [node] need not be the statement
    the hook was called with. *)
Theorem insert_unsupported_values
    (config : DiscriminatorTransformerConfig Value Host TableMatch) :
  (forall originalNode node : InsertQueryNode Host,
      super_transformInsertQuery config originalNode = Returned node ->
      insertTargetMatches TableMatcher_test config node = true ->
      isValuesNode (ins_values node) = false ->
      (throwOnUnsupported config = Some true
       \/ throwOnUnsupported config = None ->
       transformInsertQuery TableMatcher_test super_transformInsertQuery
         config originalNode = Thrown UnsupportedConstruct)
      /\ (throwOnUnsupported config = Some false ->
          transformInsertQuery TableMatcher_test super_transformInsertQuery
            config originalNode = Returned node))
  /\ (forall (originalNode node : InsertQueryNode Host) (e : Error),
        super_transformInsertQuery config originalNode = Returned node ->
        transformInsertQuery TableMatcher_test super_transformInsertQuery
          config originalNode = Thrown e ->
        e = UnsupportedConstruct
        /\ insertTargetMatches TableMatcher_test config node = true
        /\ isValuesNode (ins_values node) = false
        /\ throwOnUnsupported config <> Some false)
  /\ (forall originalNode node : SelectQueryNode Value Host,
        super_transformSelectQuery config originalNode = Returned node ->
        exists result,
          transformSelectQuery TableMatcher_test super_transformSelectQuery
            config originalNode = Returned result).
Proof.
  split; [| split].
  - intros originalNode node Hsuper Hm Hv.
    rewrite (transformInsertQuery_unsupported Hsuper Hm Hv).
    split.
    + intros [Ht | Ht]; now rewrite Ht.
    + intros Ht; now rewrite Ht.
  - intros originalNode node e Hsuper Hthrown.
    destruct (insertTargetMatches TableMatcher_test config node) eqn:Hm.
    + destruct (isValuesNode (ins_values node)) eqn:Hv.
      * rewrite (transformInsertQuery_literal Hsuper Hm Hv) in Hthrown.
        discriminate Hthrown.
      * rewrite (transformInsertQuery_unsupported Hsuper Hm Hv) in Hthrown.
        destruct (throwOnUnsupported config) as [[|] |]; simpl in Hthrown;
          try discriminate Hthrown;
          injection Hthrown as <-; repeat split; discriminate.
    + rewrite (transformInsertQuery_unmatched Hsuper Hm) in Hthrown.
      discriminate Hthrown.
  - intros originalNode node Hsuper.
    rewrite (transformSelectQuery_returned Hsuper).
    destruct (fold_left _ _ _); eexists; reflexivity.
Qed.

(** C5.  Let [node] be the INSERT statement as the inherited traversal hands
    it to the hook, without conflict clause.  Whether or not the matcher
    accepts the target table, a statement returned by the hook is [node]
    itself, so it has no conflict clause; the hook returns unless the target
    table matches, the value source is not the literal [ValuesNode] and
    [throwOnUnsupported] is not false. *)
Theorem insert_without_conflict_clause
    (config : DiscriminatorTransformerConfig Value Host TableMatch)
    (originalNode node : InsertQueryNode Host) :
  super_transformInsertQuery config originalNode = Returned node ->
  ins_onConflict node = None ->
  (forall result,
      transformInsertQuery TableMatcher_test super_transformInsertQuery
        config originalNode = Returned result ->
      result = node /\ ins_onConflict result = None)
  /\ (transformInsertQuery TableMatcher_test super_transformInsertQuery
        config originalNode = Returned node
      \/ (transformInsertQuery TableMatcher_test super_transformInsertQuery
            config originalNode = Thrown UnsupportedConstruct
          /\ insertTargetMatches TableMatcher_test config node = true
          /\ isValuesNode (ins_values node) = false
          /\ throwOnUnsupported config <> Some false)).
Proof.
  intros Hsuper Hoc.
  assert (Hcases :
    transformInsertQuery TableMatcher_test super_transformInsertQuery
      config originalNode = Returned node
    \/ (transformInsertQuery TableMatcher_test super_transformInsertQuery
          config originalNode = Thrown UnsupportedConstruct
        /\ insertTargetMatches TableMatcher_test config node = true
        /\ isValuesNode (ins_values node) = false
        /\ throwOnUnsupported config <> Some false)).
  { destruct (insertTargetMatches TableMatcher_test config node) eqn:Hm.
    - destruct (isValuesNode (ins_values node)) eqn:Hv.
      + left. rewrite (transformInsertQuery_literal Hsuper Hm Hv), Hoc; simpl.
        rewrite <- Hoc. now rewrite insertNode_eta.
      + rewrite (transformInsertQuery_unsupported Hsuper Hm Hv).
        destruct (throwOnUnsupported config) as [[|] |]; simpl;
          [right | left | right]; try reflexivity;
          repeat split; discriminate.
    - left. exact (transformInsertQuery_unmatched Hsuper Hm). }
  split; [| exact Hcases].
  intros result Hres.
  destruct Hcases as [Hret | [Hthrown _]].
  - rewrite Hret in Hres. injection Hres as <-. now split.
  - rewrite Hthrown in Hres. discriminate Hres.
Qed.

(** C9.  Let [node] be the INSERT statement as the inherited traversal hands
    it to the hook, on a table the matcher accepts and with a literal values
    list.  The hook returns a statement that is [node] with another
    [onConflict] field: the target table, the values list and every other
    field are those of [node].  The values of the discriminator do not enter
    the rows. *)
Theorem insert_changes_only_onConflict
    (config : DiscriminatorTransformerConfig Value Host TableMatch)
    (originalNode node : InsertQueryNode Host) (rows : Host) :
  super_transformInsertQuery config originalNode = Returned node ->
  insertTargetMatches TableMatcher_test config node = true ->
  ins_values node = Some (ValuesNode rows) ->
  exists result,
    transformInsertQuery TableMatcher_test super_transformInsertQuery config
      originalNode = Returned result
    /\ result
       = {| ins_into := ins_into node;
            ins_values := ins_values node;
            ins_onConflict := ins_onConflict result;
            ins_rest := ins_rest node |}
    /\ ins_into result = ins_into node
    /\ ins_values result = Some (ValuesNode rows)
    /\ ins_rest result = ins_rest node.
Proof.
  intros Hsuper Hm Hv.
  rewrite (transformInsertQuery_literal Hsuper Hm); [| now rewrite Hv].
  eexists; split; [reflexivity |].
  simpl. repeat split. exact Hv.
Qed.


(** ** Statements the rule does not apply to *)

(** C4.  When the matcher rejects the target table of an INSERT, the hook
    returns the statement as the inherited traversal rebuilt it, whatever
    its value source and whatever [throwOnUnsupported]; when the matcher
    rejects every table reference of the FROM list of a SELECT, the hook
    returns the statement as the inherited traversal rebuilt it.  In both
    cases the hook neither changes the statement nor throws.  A statement
    nested in it has by then been through its own hook, so what is returned
    need not be the statement the hook was called with. *)
Theorem unmatched_statement_unchanged
    (config : DiscriminatorTransformerConfig Value Host TableMatch) :
  (forall originalNode node : InsertQueryNode Host,
      super_transformInsertQuery config originalNode = Returned node ->
      insertTargetMatches TableMatcher_test config node = false ->
      transformInsertQuery TableMatcher_test super_transformInsertQuery
        config originalNode = Returned node)
  /\ (forall originalNode node : SelectQueryNode Value Host,
        super_transformSelectQuery config originalNode = Returned node ->
        (forall t, In t (fromTables (from_froms (sel_from node))) ->
                   tableMatcher TableMatcher_test config
                     (ft_table t) (ft_schema t) = false) ->
        transformSelectQuery TableMatcher_test super_transformSelectQuery
          config originalNode = Returned node).
Proof.
  split.
  - intros originalNode node Hsuper Hm.
    exact (transformInsertQuery_unmatched Hsuper Hm).
  - intros originalNode node Hsuper Hnone.
    assert (HP : synthesized TableMatcher_test config node = []).
    { unfold synthesized, matchingTables.
      induction (fromTables (from_froms (sel_from node))) as [| t l IH];
        [reflexivity |].
      simpl. rewrite (Hnone t (or_introl eq_refl)).
      apply IH. intros t' Hin. apply Hnone. now right. }
    rewrite (transformSelectQuery_returned Hsuper), HP; simpl.
    destruct node as [f [w |] r]; simpl; [| reflexivity].
    now destruct w.
Qed.

(** ** The plugin *)

(** C6.  [transformQuery] is the fold of the node through the transformers of
    the configured rules: the rules are taken in the order of the [tables]
    array, each gets the plugin's [throwOnUnsupported], and each transformer
    is applied to the output of the one before it (a throwing transformer
    ends the run).  [transformResult] returns the result it is given. *)
Theorem transformQuery_folds_rules
    (options : DiscriminatorPluginOptions Value Host TableMatch)
    (args : PluginTransformQueryArgs Value Host) :
  transformQuery TableMatcher_test super_transformInsertQuery
    super_transformSelectQuery super_transformHost options args
  = foldRules TableMatcher_test super_transformInsertQuery
      super_transformSelectQuery super_transformHost
      (transformers options) (args_node args)
  /\ map (fun rule => discriminator rule) (transformers options)
     = tables options
  /\ map (fun rule => throwOnUnsupported rule) (transformers options)
     = map (fun _ => options_throwOnUnsupported options) (tables options)
  /\ (forall (QueryResult : Type)
             (resultArgs : PluginTransformResultArgs Host QueryResult),
        transformResult resultArgs = args_result resultArgs).
Proof.
  split; [| split; [| split]].
  - unfold transformQuery. now rewrite fold_rules.
  - unfold transformers. rewrite map_map; simpl. apply map_id.
  - unfold transformers. now rewrite map_map.
  - reflexivity.
Qed.


(** * Further properties of the hooks and of the plugin *)

(** ** The conflict target of an INSERT *)

Lemma firstn_length_app (A : Type) (l r : list A) :
  firstn (length l) (l ++ r) = l.
Proof.
  induction l as [| a l IH]; simpl; [reflexivity | now rewrite IH].
Qed.

Lemma skipn_length_app (A : Type) (l r : list A) :
  skipn (length l) (l ++ r) = r.
Proof.
  induction l as [| a l IH]; simpl; [reflexivity | exact IH].
Qed.

(** X1.  On a table the matcher accepts and with a literal values list, the
    conflict clause of the returned INSERT has a [columns] field.  The
    columns the clause had are kept at the front as they were; the names of
    the columns after them are the keys of the mapping, in the order of the
    mapping.  A clause without [columns] field (a conflict target given by a
    constraint) gets columns named by the keys of the mapping and no other. *)
Theorem insert_conflict_columns_general
    (config : DiscriminatorTransformerConfig Value Host TableMatch)
    (originalNode node : InsertQueryNode Host)
    (onConflict : OnConflictNode Host) :
  super_transformInsertQuery config originalNode = Returned node ->
  insertTargetMatches TableMatcher_test config node = true ->
  isValuesNode (ins_values node) = true ->
  ins_onConflict node = Some onConflict ->
  exists result newColumns,
    transformInsertQuery TableMatcher_test super_transformInsertQuery config
      originalNode = Returned result
    /\ ins_onConflict result
       = Some {| oc_columns := Some newColumns;
                 oc_rest := oc_rest onConflict |}
    /\ firstn (length (nullish (oc_columns onConflict) [])) newColumns
       = nullish (oc_columns onConflict) []
    /\ map (fun c => id_name (col_column c))
         (skipn (length (nullish (oc_columns onConflict) [])) newColumns)
       = map fst (callOrGet (columns (discriminator config)) (OfInsert node))
    /\ (oc_columns onConflict = None ->
        map (fun c => id_name (col_column c)) newColumns
        = map fst (callOrGet (columns (discriminator config))
                     (OfInsert node))).
Proof.
  intros Hsuper Hm Hv Hoc.
  rewrite (transformInsertQuery_literal Hsuper Hm Hv), Hoc; simpl.
  eexists; eexists; split; [reflexivity |]; simpl.
  split; [reflexivity |].
  assert (Hnames : forall entries : list (string * Value),
             map (fun c => id_name (col_column c))
               (map (fun entry => columnNode (fst entry)) entries)
             = map fst entries).
  { intros entries. rewrite map_map. now apply map_ext. }
  split; [| split].
  - apply firstn_length_app.
  - rewrite skipn_length_app. apply Hnames.
  - intros Hnone; rewrite Hnone; simpl. apply Hnames.
Qed.
(** X2.  With an empty column mapping the INSERT hook is a no-op only when the
    conflict clause already has a [columns] field: then the statement is
    returned as it is.  A clause without [columns] field comes back with an
    empty [columns] list, so the returned statement differs from the one the
    hook was given. *)
Theorem insert_empty_mapping
    (config : DiscriminatorTransformerConfig Value Host TableMatch)
    (originalNode node : InsertQueryNode Host)
    (onConflict : OnConflictNode Host) :
  super_transformInsertQuery config originalNode = Returned node ->
  insertTargetMatches TableMatcher_test config node = true ->
  isValuesNode (ins_values node) = true ->
  ins_onConflict node = Some onConflict ->
  callOrGet (columns (discriminator config)) (OfInsert node) = [] ->
  (oc_columns onConflict <> None ->
   transformInsertQuery TableMatcher_test super_transformInsertQuery config
     originalNode = Returned node)
  /\ (oc_columns onConflict = None ->
      exists result,
        transformInsertQuery TableMatcher_test super_transformInsertQuery
          config originalNode = Returned result
        /\ ins_onConflict result
           = Some {| oc_columns := Some []; oc_rest := oc_rest onConflict |}
        /\ result <> node).
Proof.
  intros Hsuper Hm Hv Hoc Hempty.
  rewrite (transformInsertQuery_literal Hsuper Hm Hv), Hoc, Hempty; simpl.
  split.
  - intros Hsome. destruct onConflict as [[cs |] rest]; [| now elim Hsome].
    simpl. rewrite app_nil_r.
    destruct node as [into values oc irest]; simpl in *. now subst oc.
  - intros Hnone. rewrite Hnone; simpl.
    eexists; split; [reflexivity | split; [reflexivity |]].
    intros E. apply (f_equal (@ins_onConflict Host)) in E; simpl in E.
    rewrite Hoc in E. injection E as E.
    apply (f_equal (@oc_columns Host)) in E; simpl in E.
    rewrite Hnone in E. discriminate E.
Qed.

(** X3.  The INSERT hook is not idempotent either.  Let the hook turn [node]
    into [once], let the inherited traversal rebuild [once] as it is, and let
    the column mapping be the same for both statements.  A second run appends
    the columns of the discriminator again: the conflict target is the old
    columns followed by the columns of the discriminator twice. *)
Theorem insert_twice_duplicates_columns
    (config : DiscriminatorTransformerConfig Value Host TableMatch)
    (originalNode node once : InsertQueryNode Host)
    (onConflict : OnConflictNode Host) :
  super_transformInsertQuery config originalNode = Returned node ->
  insertTargetMatches TableMatcher_test config node = true ->
  isValuesNode (ins_values node) = true ->
  ins_onConflict node = Some onConflict ->
  transformInsertQuery TableMatcher_test super_transformInsertQuery config
    originalNode = Returned once ->
  super_transformInsertQuery config once = Returned once ->
  callOrGet (columns (discriminator config)) (OfInsert once)
  = callOrGet (columns (discriminator config)) (OfInsert node) ->
  exists twice,
    transformInsertQuery TableMatcher_test super_transformInsertQuery config
      once = Returned twice
    /\ ins_onConflict twice
       = Some
           {| oc_columns :=
                Some
                  (nullish (oc_columns onConflict) []
                   ++ map (fun entry => columnNode (fst entry))
                        (callOrGet (columns (discriminator config))
                           (OfInsert node))
                   ++ map (fun entry => columnNode (fst entry))
                        (callOrGet (columns (discriminator config))
                           (OfInsert node)));
              oc_rest := oc_rest onConflict |}
    /\ ins_into twice = ins_into node
    /\ ins_values twice = ins_values node
    /\ ins_rest twice = ins_rest node.
Proof.
  intros Hsuper Hm Hv Hoc Honce Hsuper' Hcols.
  rewrite (transformInsertQuery_literal Hsuper Hm Hv), Hoc in Honce.
  simpl in Honce. injection Honce as Honce.
  assert (Hm' : insertTargetMatches TableMatcher_test config once = true).
  { subst once. exact Hm. }
  assert (Hv' : isValuesNode (ins_values once) = true).
  { subst once. exact Hv. }
  rewrite (transformInsertQuery_literal Hsuper' Hm' Hv'), Hcols.
  eexists; split; [reflexivity |].
  subst once; simpl. rewrite <- app_assoc. repeat split.
Qed.


(** ** The filter of a SELECT *)

Lemma reduce_conjuncts (l : list (FilterExpressionNode Value Host)) :
  conjunctsOf (fold_left (@andStep Value Host) l None)
  = flat_map (@conjuncts Value Host) l.
Proof.
  destruct l as [| p l]; [reflexivity |].
  destruct (@reduce_chain (p :: l)) as [c [Hc Hchain]]; [discriminate |].
  rewrite Hc. exact (AndChain_conjuncts Hchain).
Qed.

Lemma where_list_conjuncts (node : SelectQueryNode Value Host) :
  flat_map (@conjuncts Value Host)
    match sel_where node with
    | Some w => [where_where w]
    | None => []
    end
  = conjunctsOf (whereOf node).
Proof.
  unfold whereOf. destruct (sel_where node); simpl;
    [now rewrite app_nil_r | reflexivity].
Qed.

Lemma select_hook_summary
    (config : DiscriminatorTransformerConfig Value Host TableMatch)
    (originalNode node : SelectQueryNode Value Host) :
  super_transformSelectQuery config originalNode = Returned node ->
  exists result,
    transformSelectQuery TableMatcher_test super_transformSelectQuery config
      originalNode = Returned result
    /\ sel_from result = sel_from node
    /\ sel_rest result = sel_rest node
    /\ conjunctsOf (whereOf result)
       = synthesized TableMatcher_test config node
         ++ conjunctsOf (whereOf node).
Proof.
  intros Hsuper. rewrite (transformSelectQuery_returned Hsuper).
  pose proof (reduce_conjuncts
                (synthesized TableMatcher_test config node
                 ++ match sel_where node with
                    | Some w => [where_where w]
                    | None => []
                    end)) as Hred.
  rewrite flat_map_app, synthesized_are_conjuncts, where_list_conjuncts in Hred.
  destruct (fold_left _ _ None) as [f |]; simpl in Hred.
  - eexists; split; [reflexivity |]. repeat split. exact Hred.
  - exists node; split; [reflexivity |]. repeat split.
    symmetry in Hred. apply app_eq_nil in Hred as [HP Hw].
    now rewrite HP, Hw.
Qed.

Lemma select_no_predicates
    (config : DiscriminatorTransformerConfig Value Host TableMatch)
    (originalNode node : SelectQueryNode Value Host) :
  super_transformSelectQuery config originalNode = Returned node ->
  synthesized TableMatcher_test config node = [] ->
  transformSelectQuery TableMatcher_test super_transformSelectQuery config
    originalNode = Returned node.
Proof.
  intros Hsuper HP.
  rewrite (transformSelectQuery_returned Hsuper), HP; simpl.
  destruct node as [f [w |] r]; simpl; [| reflexivity].
  now destruct w.
Qed.

(** X4.  The SELECT hook touches the WHERE only: the returned statement has
    the FROM list and every other field of the statement it was given, and
    the conjuncts of its filter are the synthesized predicates followed by
    the conjuncts of the filter the statement had (none when it had no
    WHERE).  The hook returns whenever the inherited traversal does. *)
Theorem select_changes_only_where
    (config : DiscriminatorTransformerConfig Value Host TableMatch)
    (originalNode node : SelectQueryNode Value Host) :
  super_transformSelectQuery config originalNode = Returned node ->
  exists result,
    transformSelectQuery TableMatcher_test super_transformSelectQuery config
      originalNode = Returned result
    /\ sel_from result = sel_from node
    /\ sel_rest result = sel_rest node
    /\ conjunctsOf (whereOf result)
       = synthesized TableMatcher_test config node
         ++ conjunctsOf (whereOf node).
Proof.
  exact (@select_hook_summary config originalNode node).
Qed.

(** X5.  The SELECT hook returns the statement it was given exactly when no
    predicate is synthesized, that is when no table reference of the FROM
    list is accepted by the matcher or the column mapping is empty. *)
Theorem select_unchanged_iff_nothing_synthesized
    (config : DiscriminatorTransformerConfig Value Host TableMatch)
    (originalNode node : SelectQueryNode Value Host) :
  super_transformSelectQuery config originalNode = Returned node ->
  (transformSelectQuery TableMatcher_test super_transformSelectQuery config
     originalNode = Returned node
   <-> synthesized TableMatcher_test config node = [])
  /\ (synthesized TableMatcher_test config node = []
      <-> matchingTables TableMatcher_test config node = []
          \/ callOrGet (columns (discriminator config)) (OfSelect node) = []).
Proof.
  intros Hsuper. split; [split |].
  - intros Hsame.
    destruct (select_hook_summary Hsuper)
      as [result [Hres [_ [_ Hconj]]]].
    rewrite Hsame in Hres. injection Hres as <-.
    apply (f_equal (@length _)) in Hconj. rewrite length_app in Hconj.
    destruct (synthesized TableMatcher_test config node);
      [reflexivity | simpl in Hconj; lia].
  - exact (select_no_predicates Hsuper).
  - unfold synthesized.
    destruct (matchingTables TableMatcher_test config node) as [| t l];
      simpl.
    + split; [now left | reflexivity].
    + destruct (callOrGet (columns (discriminator config)) (OfSelect node))
        as [| e es]; simpl.
      * split; [now right |]. intros _.
        induction l as [| t' l IH]; simpl; [reflexivity | exact IH].
      * split; [discriminate |]. intros [E | E]; discriminate E.
Qed.

(** X6.  A SELECT without WHERE: when nothing is synthesized the hook returns
    it without WHERE; otherwise the returned statement has a WHERE whose
    filter is the left-associated conjunction of the synthesized predicates
    and nothing else. *)
Theorem select_without_where
    (config : DiscriminatorTransformerConfig Value Host TableMatch)
    (originalNode node : SelectQueryNode Value Host) :
  super_transformSelectQuery config originalNode = Returned node ->
  sel_where node = None ->
  (synthesized TableMatcher_test config node = [] ->
   transformSelectQuery TableMatcher_test super_transformSelectQuery config
     originalNode = Returned node)
  /\ (synthesized TableMatcher_test config node <> [] ->
      exists filterNode,
        transformSelectQuery TableMatcher_test super_transformSelectQuery
          config originalNode
        = Returned
            {| sel_from := sel_from node;
               sel_where := Some {| where_where := filterNode |};
               sel_rest := sel_rest node |}
        /\ AndChain (synthesized TableMatcher_test config node) filterNode).
Proof.
  intros Hsuper Hwhere. split.
  - exact (select_no_predicates Hsuper).
  - intros Hne.
    rewrite (transformSelectQuery_returned Hsuper), Hwhere, app_nil_r.
    destruct (reduce_chain Hne) as [c [Hc Hchain]].
    rewrite Hc. now exists c.
Qed.

Lemma fromTables_membership (froms : list (TableExpressionNode Host))
    (ft : FromTable) :
  In ft (fromTables froms)
  <-> exists t : TableNode,
        In (FromTableNode t) froms
        /\ ft = {| ft_table := id_name (sid_identifier (tbl_table t));
                   ft_schema := option_map id_name (sid_schema (tbl_table t)) |}.
Proof.
  unfold fromTables. rewrite in_flat_map. split.
  - intros [[t | a] [Hin Hft]].
    + destruct Hft as [<- | []]. now exists t.
    + destruct (alias_alias a); contradiction.
  - intros [t [Hin ->]]. exists (FromTableNode t); split; [exact Hin |].
    now left.
Qed.

(** X7.  What the hook conjoins: a filter is in the list [eqNodes] exactly
    when it is the filter the statement had, or, for a table [t] that the
    FROM list names directly and that the matcher accepts on its name and
    schema, and for an entry of the mapping, the filter comparing the column
    named by the key of the entry, of the table [t], by "=" with the value of
    the entry.  No predicate is built for an aliased item, for a table the
    matcher rejects or for a column outside the mapping. *)
Theorem eqNodes_membership
    (config : DiscriminatorTransformerConfig Value Host TableMatch)
    (node : SelectQueryNode Value Host)
    (p : FilterExpressionNode Value Host) :
  In p (eqNodes TableMatcher_test config node)
  <-> (exists (t : TableNode) (entry : string * Value),
          In (FromTableNode t) (from_froms (sel_from node))
          /\ TableMatcher_test (table (discriminator config))
               (id_name (sid_identifier (tbl_table t)))
               (match sid_schema (tbl_table t) with
                | Some schema => Some (id_name schema)
                | None => None
                end) = true
          /\ In entry (callOrGet (columns (discriminator config))
                         (OfSelect node))
          /\ p = FilterNode
                   (ReferenceOperand
                      {| ref_table := Some t;
                         ref_column :=
                           {| col_column := {| id_name := fst entry |} |} |})
                   {| op_operator := "=" |}
                   (ValueOperand {| val_value := snd entry |}))
      \/ sel_where node = Some {| where_where := p |}.
Proof.
  unfold eqNodes, Object_entries.
  rewrite in_app_iff, in_flat_map. split.
  - intros [[ft [Hft Hp]] | Hw].
    + left. apply fromTables_membership in Hft as [t [Ht ->]].
      unfold tableMatcher in Hp; simpl in Hp.
      destruct (TableMatcher_test _ _ _) eqn:Hm; simpl in Hp;
        [| contradiction].
      apply in_map_iff in Hp as [entry [<- Hentry]].
      exists t, entry. repeat split; try assumption.
      apply eqNode_of_table.
    + right. destruct (sel_where node) as [[w] |]; simpl in *;
        [| contradiction].
      destruct Hw as [<- | []]. reflexivity.
  - intros [[t [entry [Ht [Hm [Hentry ->]]]]] | Hw].
    + left.
      exists {| ft_table := id_name (sid_identifier (tbl_table t));
                ft_schema := option_map id_name (sid_schema (tbl_table t)) |}.
      split; [apply fromTables_membership; now exists t |].
      unfold tableMatcher; simpl.
      change (option_map id_name (sid_schema (tbl_table t)))
        with (match sid_schema (tbl_table t) with
              | Some schema => Some (id_name schema)
              | None => None
              end).
      rewrite Hm; simpl. apply in_map_iff. exists entry; split;
        [apply eqNode_of_table | exact Hentry].
    + right. rewrite Hw. now left.
Qed.
(** X8.  The number of filters the hook conjoins: one per accepted table
    reference and entry of the mapping (a table listed twice in the FROM
    list counts twice), plus one when the statement had a WHERE. *)
Theorem eqNodes_count
    (config : DiscriminatorTransformerConfig Value Host TableMatch)
    (node : SelectQueryNode Value Host) :
  length (eqNodes TableMatcher_test config node)
  = length (matchingTables TableMatcher_test config node)
    * length (callOrGet (columns (discriminator config)) (OfSelect node))
    + match sel_where node with
      | Some _ => 1
      | None => 0
      end.
Proof.
  rewrite eqNodes_synthesized, length_app. f_equal.
  - unfold synthesized.
    induction (matchingTables TableMatcher_test config node) as [| t l IH];
      simpl; [reflexivity |].
    now rewrite length_app, length_map, IH.
  - now destruct (sel_where node).
Qed.

(** X9.  The table a predicate is qualified with is the table node of the
    FROM item, rebuilt from its name and schema: a direct table reference
    [t] yields, for a column and a value, the equality of the reference to
    that column of [t] itself (schema included when [t] has one) with the
    value. *)
Theorem predicate_refers_to_from_table
    (t : TableNode) (column : string) (value : Value) :
  map (fun ft => @eqNode Value Host ft column value)
    (fromTables [@FromTableNode Host t])
  = [FilterNode
       (ReferenceOperand
          {| ref_table := Some t; ref_column := columnNode column |})
       {| op_operator := "=" |}
       (ValueOperand {| val_value := value |})].
Proof.
  destruct t as [[[tableName] [[schemaName] |]]]; reflexivity.
Qed.


(** ** Several rules *)

Lemma transformQuery_foldRules
    (options : DiscriminatorPluginOptions Value Host TableMatch)
    (args : PluginTransformQueryArgs Value Host) :
  transformQuery TableMatcher_test super_transformInsertQuery
    super_transformSelectQuery super_transformHost options args
  = foldRules TableMatcher_test super_transformInsertQuery
      super_transformSelectQuery super_transformHost
      (transformers options) (args_node args).
Proof.
  unfold transformQuery. now rewrite fold_rules.
Qed.

Lemma foldRules_app
    (rules1 rules2 : list (DiscriminatorTransformerConfig Value Host TableMatch))
    (node : RootOperationNode Value Host) :
  foldRules TableMatcher_test super_transformInsertQuery
    super_transformSelectQuery super_transformHost (rules1 ++ rules2) node
  = bind
      (foldRules TableMatcher_test super_transformInsertQuery
         super_transformSelectQuery super_transformHost rules1 node)
      (foldRules TableMatcher_test super_transformInsertQuery
         super_transformSelectQuery super_transformHost rules2).
Proof.
  revert node; induction rules1 as [| rule rest IH]; intros node; simpl;
    [reflexivity |].
  destruct (transformNode _ _ _ _ rule node) as [node' | e]; simpl;
    [apply IH | reflexivity].
Qed.

(** X10.  Running the plugin with the rules [l1 ++ l2] is running it with the
    rules [l1] and then, on the node that run returns, with the rules [l2];
    when the first run throws, the rules [l2] are not run and the error is
    the one of the first run. *)
Theorem transformQuery_app
    (l1 l2 : list (Discriminator Value Host TableMatch))
    (flag : option bool) (args : PluginTransformQueryArgs Value Host) :
  transformQuery TableMatcher_test super_transformInsertQuery
    super_transformSelectQuery super_transformHost
    {| tables := l1 ++ l2; options_throwOnUnsupported := flag |} args
  = bind
      (transformQuery TableMatcher_test super_transformInsertQuery
         super_transformSelectQuery super_transformHost
         {| tables := l1; options_throwOnUnsupported := flag |} args)
      (fun node =>
         transformQuery TableMatcher_test super_transformInsertQuery
           super_transformSelectQuery super_transformHost
           {| tables := l2; options_throwOnUnsupported := flag |}
           {| args_node := node; args_queryId := args_queryId args |}).
Proof.
  rewrite !transformQuery_foldRules.
  unfold transformers; simpl. rewrite map_app, foldRules_app.
  destruct (foldRules _ _ _ _ _ (args_node args)) as [node | e]; simpl;
    [| reflexivity].
  now rewrite transformQuery_foldRules.
Qed.

Lemma synthesized_same_from
    (config : DiscriminatorTransformerConfig Value Host TableMatch)
    (node node' : SelectQueryNode Value Host) :
  sel_from node' = sel_from node ->
  callOrGet (columns (discriminator config)) (OfSelect node')
  = callOrGet (columns (discriminator config)) (OfSelect node) ->
  synthesized TableMatcher_test config node'
  = synthesized TableMatcher_test config node.
Proof.
  intros Hfrom Hcols. unfold synthesized, matchingTables.
  now rewrite Hfrom, Hcols.
Qed.

Lemma foldRules_select
    (rules : list (DiscriminatorTransformerConfig Value Host TableMatch)) :
  (forall config node, super_transformSelectQuery config node = Returned node) ->
  (forall config, In config rules ->
     forall n n', callOrGet (columns (discriminator config)) n
                  = callOrGet (columns (discriminator config)) n') ->
  forall node : SelectQueryNode Value Host,
  exists result,
    foldRules TableMatcher_test super_transformInsertQuery
      super_transformSelectQuery super_transformHost rules (SelectQuery node)
    = Returned (SelectQuery result)
    /\ sel_from result = sel_from node
    /\ sel_rest result = sel_rest node
    /\ conjunctsOf (whereOf result)
       = flat_map (fun rule => synthesized TableMatcher_test rule node)
           (rev rules)
         ++ conjunctsOf (whereOf node).
Proof.
  intros Hid. induction rules as [| rule rest IH]; intros Hconst node.
  - exists node; simpl; repeat split.
  - simpl.
    destruct (select_hook_summary (Hid rule node))
      as [once [Honce [Hfrom [Hrest Hconj]]]].
    rewrite Honce; simpl.
    destruct (IH (fun c Hc => Hconst c (or_intror Hc)) once)
      as [result [Hres [Hfrom' [Hrest' Hconj']]]].
    exists result; split; [exact Hres |].
    split; [congruence | split; [congruence |]].
    rewrite Hconj', Hconj, flat_map_app; simpl.
    rewrite app_nil_r, <- app_assoc. f_equal.
    rewrite !flat_map_concat_map. f_equal.
    apply map_ext_in. intros c Hc. apply in_rev in Hc.
    apply synthesized_same_from; [exact Hfrom |].
    apply (Hconst c (or_intror Hc)).
Qed.

(** X11.  Several rules on one SELECT accumulate.  Let the inherited traversal
    rebuild every statement as it is and let no column mapping depend on the
    statement.  The plugin returns the SELECT with its FROM list and other
    fields, and the conjuncts of its filter are the predicates of the last
    rule, then those of the rule before it, and so on back to the first
    rule, then the conjuncts of the filter the statement had: each rule puts
    its predicates in front of what the rules before it produced. *)
Theorem plugin_select_accumulates
    (options : DiscriminatorPluginOptions Value Host TableMatch)
    (args : PluginTransformQueryArgs Value Host)
    (node : SelectQueryNode Value Host) :
  (forall config n, super_transformSelectQuery config n = Returned n) ->
  (forall d, In d (tables options) ->
     forall n n', callOrGet (columns d) n = callOrGet (columns d) n') ->
  args_node args = SelectQuery node ->
  exists result,
    transformQuery TableMatcher_test super_transformInsertQuery
      super_transformSelectQuery super_transformHost options args
    = Returned (SelectQuery result)
    /\ sel_from result = sel_from node
    /\ sel_rest result = sel_rest node
    /\ conjunctsOf (whereOf result)
       = flat_map (fun rule => synthesized TableMatcher_test rule node)
           (rev (transformers options))
         ++ conjunctsOf (whereOf node).
Proof.
  intros Hid Hconst Hnode.
  rewrite transformQuery_foldRules, Hnode.
  apply foldRules_select; [exact Hid |].
  intros config Hin. unfold transformers in Hin.
  apply in_map_iff in Hin as [d [<- Hd]]. simpl. now apply Hconst.
Qed.

Lemma foldRules_insert_literal
    (rules : list (DiscriminatorTransformerConfig Value Host TableMatch)) :
  (forall config n, super_transformInsertQuery config n = Returned n) ->
  forall node : InsertQueryNode Host,
  isValuesNode (ins_values node) = true ->
  exists result,
    foldRules TableMatcher_test super_transformInsertQuery
      super_transformSelectQuery super_transformHost rules (InsertQuery node)
    = Returned (InsertQuery result)
    /\ ins_into result = ins_into node
    /\ ins_values result = ins_values node.
Proof.
  intros Hid. induction rules as [| rule rest IH]; intros node Hv.
  - exists node; simpl; repeat split.
  - simpl.
    destruct (insertTargetMatches TableMatcher_test rule node) eqn:Hm.
    + rewrite (transformInsertQuery_literal (Hid rule node) Hm Hv); simpl.
      match goal with
      | |- context [foldRules _ _ _ _ rest (InsertQuery ?n)] =>
          destruct (IH n Hv) as [result [Hres [Hinto Hvalues]]]
      end.
      exists result; split; [exact Hres | split; assumption].
    + rewrite (transformInsertQuery_unmatched (Hid rule node) Hm); simpl.
      exact (IH node Hv).
Qed.

Lemma foldRules_insert_nonliteral
    (rules : list (DiscriminatorTransformerConfig Value Host TableMatch)) :
  (forall config n, super_transformInsertQuery config n = Returned n) ->
  forall node : InsertQueryNode Host,
  isValuesNode (ins_values node) = false ->
  foldRules TableMatcher_test super_transformInsertQuery
    super_transformSelectQuery super_transformHost rules (InsertQuery node)
  = if existsb
         (fun rule =>
            insertTargetMatches TableMatcher_test rule node
            && nullish (throwOnUnsupported rule) true)
         rules
    then Thrown UnsupportedConstruct
    else Returned (InsertQuery node).
Proof.
  intros Hid node Hv. induction rules as [| rule rest IH]; simpl;
    [reflexivity |].
  destruct (insertTargetMatches TableMatcher_test rule node) eqn:Hm; simpl.
  - rewrite (transformInsertQuery_unsupported (Hid rule node) Hm Hv).
    destruct (nullish (throwOnUnsupported rule) true); simpl;
      [reflexivity | exact IH].
  - rewrite (transformInsertQuery_unmatched (Hid rule node) Hm); simpl.
    exact IH.
Qed.

(** X12.  When the plugin throws on an INSERT.  Let the inherited traversal
    rebuild every statement as it is.  The plugin throws on an INSERT exactly
    when the value source is not the literal [ValuesNode], the plugin's
    [throwOnUnsupported] is true or unset, and the matcher of some
    configured rule accepts the target table; the error is the
    unsupported-construct error.  In particular one matching rule is
    enough, wherever it stands in the list, and with a literal values list
    the plugin never throws. *)
Theorem plugin_insert_throws_iff
    (options : DiscriminatorPluginOptions Value Host TableMatch)
    (args : PluginTransformQueryArgs Value Host)
    (node : InsertQueryNode Host) (e : Error) :
  (forall config n, super_transformInsertQuery config n = Returned n) ->
  args_node args = InsertQuery node ->
  (transformQuery TableMatcher_test super_transformInsertQuery
     super_transformSelectQuery super_transformHost options args = Thrown e
   <-> e = UnsupportedConstruct
       /\ isValuesNode (ins_values node) = false
       /\ options_throwOnUnsupported options <> Some false
       /\ exists rule,
            In rule (transformers options)
            /\ insertTargetMatches TableMatcher_test rule node = true).
Proof.
  intros Hid Hnode.
  rewrite transformQuery_foldRules, Hnode.
  assert (Hflag : forall rule, In rule (transformers options) ->
            throwOnUnsupported rule = options_throwOnUnsupported options).
  { intros rule Hin. unfold transformers in Hin.
    apply in_map_iff in Hin as [d [<- _]]. reflexivity. }
  destruct (isValuesNode (ins_values node)) eqn:Hv.
  - destruct (foldRules_insert_literal (transformers options) Hid node Hv)
      as [result [Hres _]].
    rewrite Hres. split; [discriminate |].
    intros [_ [Hfalse _]]; discriminate Hfalse.
  - rewrite (foldRules_insert_nonliteral (transformers options) Hid node Hv).
    destruct (existsb _ (transformers options)) eqn:Hex.
    + apply existsb_exists in Hex as [rule [Hin Hrule]].
      apply andb_prop in Hrule as [Hm Ht].
      rewrite (Hflag rule Hin) in Ht.
      split.
      * intros E; injection E as <-.
        split; [reflexivity | split; [reflexivity | split]].
        -- intros Hf; rewrite Hf in Ht; discriminate Ht.
        -- now exists rule.
      * intros [-> _]; reflexivity.
    + split; [discriminate |].
      intros [_ [_ [Hf [rule [Hin Hm]]]]]. exfalso.
      assert (Hrule : existsb
                (fun rule =>
                   insertTargetMatches TableMatcher_test rule node
                   && nullish (throwOnUnsupported rule) true)
                (transformers options) = true).
      { apply existsb_exists. exists rule; split; [exact Hin |].
        rewrite Hm, (Hflag rule Hin); simpl.
        destruct (options_throwOnUnsupported options) as [[|] |];
          simpl; congruence. }
      rewrite Hrule in Hex. discriminate Hex.
Qed.


Lemma foldRules_insert_columns
    (reference : InsertQueryNode Host)
    (rules : list (DiscriminatorTransformerConfig Value Host TableMatch)) :
  (forall config n,
     ins_into n = ins_into reference ->
     ins_values n = ins_values reference ->
     super_transformInsertQuery config n = Returned n) ->
  (forall config, In config rules ->
     forall n n', callOrGet (columns (discriminator config)) n
                  = callOrGet (columns (discriminator config)) n') ->
  isValuesNode (ins_values reference) = true ->
  forall (cs : list ColumnNode) (rest irest : Host),
  foldRules TableMatcher_test super_transformInsertQuery
    super_transformSelectQuery super_transformHost rules
    (InsertQuery
       {| ins_into := ins_into reference;
          ins_values := ins_values reference;
          ins_onConflict := Some {| oc_columns := Some cs; oc_rest := rest |};
          ins_rest := irest |})
  = Returned
      (InsertQuery
         {| ins_into := ins_into reference;
            ins_values := ins_values reference;
            ins_onConflict :=
              Some
                {| oc_columns :=
                     Some
                       (cs
                        ++ flat_map
                             (fun rule =>
                                if insertTargetMatches TableMatcher_test rule
                                     reference
                                then
                                  map
                                    (fun entry =>
                                       {| col_column :=
                                            {| id_name := fst entry |} |})
                                    (callOrGet (columns (discriminator rule))
                                       (OfInsert reference))
                                else [])
                             rules);
                   oc_rest := rest |};
            ins_rest := irest |}).
Proof.
  intros Hid Hconst Hv. induction rules as [| rule others IH];
    intros cs rest irest; simpl.
  - now rewrite app_nil_r.
  - set (current :=
           {| ins_into := ins_into reference;
              ins_values := ins_values reference;
              ins_onConflict :=
                Some {| oc_columns := Some cs; oc_rest := rest |};
              ins_rest := irest |}).
    assert (Hsame : insertTargetMatches TableMatcher_test rule current
                    = insertTargetMatches TableMatcher_test rule reference)
      by reflexivity.
    destruct (insertTargetMatches TableMatcher_test rule reference) eqn:Hm.
    + rewrite (transformInsertQuery_literal
                 (Hid rule current eq_refl eq_refl) Hsame Hv).
      simpl.
      rewrite (Hconst rule (or_introl eq_refl) (OfInsert current)
                 (OfInsert reference)).
      unfold columnNode.
      rewrite (IH (fun c Hc => Hconst c (or_intror Hc))).
      now rewrite <- app_assoc.
    + rewrite (transformInsertQuery_unmatched
                 (Hid rule current eq_refl eq_refl) Hsame).
      simpl. exact (IH (fun c Hc => Hconst c (or_intror Hc)) cs rest irest).
Qed.
(** X13.  Several rules on one INSERT accumulate.  Let the inherited
    traversal rebuild as it is every statement with the target table and the
    value source of the INSERT, and let no column mapping depend on the
    statement.  For an INSERT with a literal values list and a conflict
    clause with target columns [cs], the plugin returns the statement with
    the target columns [cs] followed, for every rule whose matcher accepts
    the target table, in the order of the rules, by the columns named by the
    keys of the rule's mapping; rules that do not match add nothing and
    nothing else changes. *)
Theorem plugin_insert_accumulates
    (options : DiscriminatorPluginOptions Value Host TableMatch)
    (args : PluginTransformQueryArgs Value Host)
    (node : InsertQueryNode Host) (onConflict : OnConflictNode Host)
    (cs : list ColumnNode) :
  (forall config n,
     ins_into n = ins_into node ->
     ins_values n = ins_values node ->
     super_transformInsertQuery config n = Returned n) ->
  (forall d, In d (tables options) ->
     forall n n', callOrGet (columns d) n = callOrGet (columns d) n') ->
  args_node args = InsertQuery node ->
  isValuesNode (ins_values node) = true ->
  ins_onConflict node = Some onConflict ->
  oc_columns onConflict = Some cs ->
  transformQuery TableMatcher_test super_transformInsertQuery
    super_transformSelectQuery super_transformHost options args
  = Returned
      (InsertQuery
         {| ins_into := ins_into node;
            ins_values := ins_values node;
            ins_onConflict :=
              Some
                {| oc_columns :=
                     Some
                       (cs
                        ++ flat_map
                             (fun rule =>
                                if insertTargetMatches TableMatcher_test rule
                                     node
                                then
                                  map
                                    (fun entry =>
                                       {| col_column :=
                                            {| id_name := fst entry |} |})
                                    (callOrGet (columns (discriminator rule))
                                       (OfInsert node))
                                else [])
                             (transformers options));
                   oc_rest := oc_rest onConflict |};
            ins_rest := ins_rest node |}).
Proof.
  intros Hid Hconst Hnode Hv Hoc Hcs.
  rewrite transformQuery_foldRules, Hnode.
  assert (Hconst' : forall config, In config (transformers options) ->
            forall n n', callOrGet (columns (discriminator config)) n
                         = callOrGet (columns (discriminator config)) n').
  { intros config Hin. unfold transformers in Hin.
    apply in_map_iff in Hin as [d [<- Hd]]. simpl. now apply Hconst. }
  rewrite <- (foldRules_insert_columns node (transformers options)
                Hid Hconst' Hv cs (oc_rest onConflict) (ins_rest node)).
  do 2 f_equal.
  destruct node as [into values oc irest]; simpl in *. subst oc.
  destruct onConflict as [ocs orest]; simpl in *. now subst ocs.
Qed.
End Properties.

(** * Concrete runs *)

(** The filter of the statement above, written out. *)
Example select_orders_paid_filter :
  transformSelectQuery TablePattern_test rebuildSelect
    (configOf ordersRule2 None) selectOrdersPaid
  = Returned
      {| sel_from := sel_from selectOrdersPaid;
         sel_where :=
           Some
             {| where_where :=
                  AndNode
                    (AndNode (eqNode ordersRef "tenant_id" "42")
                       (eqNode ordersRef "deleted" "false"))
                    (HostFilter "paid") |};
         sel_rest := sel_rest selectOrdersPaid |}.
Proof. reflexivity. Qed.

Lemma select_twice_repeats_predicates_witness :
  rebuildSelect (configOf ordersRule None) selectOrdersPaid
  = Returned selectOrdersPaid
  /\ transformSelectQuery TablePattern_test rebuildSelect
       (configOf ordersRule None) selectOrdersPaid
     = Returned selectOrdersPaidOnce
  /\ synthesized TablePattern_test (configOf ordersRule None) selectOrdersPaid
     <> []
  /\ exists twice f1 f2,
      transformSelectQuery TablePattern_test rebuildSelect
        (configOf ordersRule None) selectOrdersPaidOnce = Returned twice
      /\ whereOf selectOrdersPaidOnce = Some f1
      /\ whereOf twice = Some f2
      /\ AndChain
           (synthesized TablePattern_test (configOf ordersRule None)
              selectOrdersPaid ++ [f1]) f2
      /\ conjuncts f1
         = synthesized TablePattern_test (configOf ordersRule None)
             selectOrdersPaid
           ++ conjunctsOf (whereOf selectOrdersPaid)
      /\ conjuncts f2
         = synthesized TablePattern_test (configOf ordersRule None)
             selectOrdersPaid
           ++ synthesized TablePattern_test (configOf ordersRule None)
                selectOrdersPaid
           ++ conjunctsOf (whereOf selectOrdersPaid)
      /\ twice <> selectOrdersPaidOnce.
Proof.
  split; [reflexivity | split; [reflexivity | split; [discriminate |]]].
  apply (select_twice_repeats_predicates TablePattern_test rebuildSelect
           (configOf ordersRule None) selectOrdersPaid
           (node := selectOrdersPaid) (once := selectOrdersPaidOnce));
    try reflexivity.
  discriminate.
Defined.

(** The statement after two runs: the predicate occurs twice. *)
Example select_orders_paid_twice :
  transformSelectQuery TablePattern_test rebuildSelect
    (configOf ordersRule None) selectOrdersPaidOnce
  = Returned
      {| sel_from := sel_from selectOrdersPaid;
         sel_where :=
           Some
             {| where_where :=
                  AndNode (eqNode ordersRef "tenant_id" "42")
                    (AndNode (eqNode ordersRef "tenant_id" "42")
                       (HostFilter "paid")) |};
         sel_rest := sel_rest selectOrdersPaid |}.
Proof. reflexivity. Qed.

Lemma aliased_from_items_are_skipped_witness :
  rebuildSelect (configOf ordersRule None) selectOrdersAliased
  = Returned selectOrdersAliased
  /\ forallb (@isAlias string) (from_froms (sel_from selectOrdersAliased))
     = true
  /\ TablePattern_test (table ordersRule) "orders" None = true
  /\ synthesized TablePattern_test (configOf ordersRule None)
       selectOrdersAliased = []
  /\ transformSelectQuery TablePattern_test rebuildSelect
       (configOf ordersRule None) selectOrdersAliased
     = Returned selectOrdersAliased.
Proof.
  split; [reflexivity | split; [reflexivity | split; [reflexivity |]]].
  apply (proj2 (proj2 (proj2 (aliased_from_items_are_skipped
                                TablePattern_test rebuildSelect
                                (configOf ordersRule None)))));
    reflexivity.
Defined.

Lemma insert_unsupported_values_witness :
  (traverseInsert (nestedOrdersRule None) (insertFromSelect "orders" ordersSource)
   = Returned (insertFromSelect "orders" ordersSourceFiltered)
   /\ insertTargetMatches TablePattern_test (nestedOrdersRule None)
        (insertFromSelect "orders" ordersSourceFiltered) = true
   /\ isValuesNode (ins_values (insertFromSelect "orders" ordersSourceFiltered))
      = false)
  /\ transformInsertQuery TablePattern_test traverseInsert
       (nestedOrdersRule None) (insertFromSelect "orders" ordersSource)
     = Thrown UnsupportedConstruct
  /\ transformInsertQuery TablePattern_test traverseInsert
       (nestedOrdersRule (Some true)) (insertFromSelect "orders" ordersSource)
     = Thrown UnsupportedConstruct
  /\ transformInsertQuery TablePattern_test traverseInsert
       (nestedOrdersRule (Some false)) (insertFromSelect "orders" ordersSource)
     = Returned (insertFromSelect "orders" ordersSourceFiltered).
Proof.
  split; [repeat split |].
  split; [| split].
  - apply (proj1 (insert_unsupported_values TablePattern_test traverseInsert
                    leafSelect (nestedOrdersRule None))
             (insertFromSelect "orders" ordersSource)
             (insertFromSelect "orders" ordersSourceFiltered)
             eq_refl eq_refl eq_refl).
    right; reflexivity.
  - apply (proj1 (insert_unsupported_values TablePattern_test traverseInsert
                    leafSelect (nestedOrdersRule (Some true)))
             (insertFromSelect "orders" ordersSource)
             (insertFromSelect "orders" ordersSourceFiltered)
             eq_refl eq_refl eq_refl).
    left; reflexivity.
  - apply (proj1 (insert_unsupported_values TablePattern_test traverseInsert
                    leafSelect (nestedOrdersRule (Some false)))
             (insertFromSelect "orders" ordersSource)
             (insertFromSelect "orders" ordersSourceFiltered)
             eq_refl eq_refl eq_refl).
    reflexivity.
Defined.
Lemma insert_without_conflict_clause_witness :
  rebuildInsert (configOf ordersRule None) insertOrders = Returned insertOrders
  /\ ins_onConflict insertOrders = None
  /\ forall result,
      transformInsertQuery TablePattern_test rebuildInsert
        (configOf ordersRule None) insertOrders = Returned result ->
      result = insertOrders /\ ins_onConflict result = None.
Proof.
  split; [reflexivity | split; [reflexivity |]].
  apply (insert_without_conflict_clause TablePattern_test rebuildInsert
           (configOf ordersRule None) insertOrders (node := insertOrders));
    reflexivity.
Defined.

Lemma insert_changes_only_onConflict_witness :
  rebuildInsert (configOf ordersRule None) upsertOrders = Returned upsertOrders
  /\ insertTargetMatches TablePattern_test (configOf ordersRule None)
       upsertOrders = true
  /\ ins_values upsertOrders = Some (ValuesNode "rows")
  /\ exists result,
      transformInsertQuery TablePattern_test rebuildInsert
        (configOf ordersRule None) upsertOrders = Returned result
      /\ result
         = {| ins_into := ins_into upsertOrders;
              ins_values := ins_values upsertOrders;
              ins_onConflict := ins_onConflict result;
              ins_rest := ins_rest upsertOrders |}
      /\ ins_into result = ins_into upsertOrders
      /\ ins_values result = Some (ValuesNode "rows")
      /\ ins_rest result = ins_rest upsertOrders.
Proof.
  split; [reflexivity | split; [reflexivity | split; [reflexivity |]]].
  apply (insert_changes_only_onConflict TablePattern_test rebuildInsert
           (configOf ordersRule None) upsertOrders
           (node := upsertOrders) (rows := "rows"));
    reflexivity.
Defined.


Lemma unmatched_statement_unchanged_witness :
  (traverseInsert (nestedOrdersRule None)
     (insertFromSelect "customers" ordersSource)
   = Returned (insertFromSelect "customers" ordersSourceFiltered)
   /\ insertTargetMatches TablePattern_test (nestedOrdersRule None)
        (insertFromSelect "customers" ordersSourceFiltered) = false
   /\ matchingTables TablePattern_test (configOf ordersRule None)
        selectCustomers = [])
  /\ transformInsertQuery TablePattern_test traverseInsert
       (nestedOrdersRule None) (insertFromSelect "customers" ordersSource)
     = Returned (insertFromSelect "customers" ordersSourceFiltered)
  /\ transformSelectQuery TablePattern_test rebuildSelect
       (configOf ordersRule None) selectCustomers
     = Returned selectCustomers.
Proof.
  split; [repeat split |].
  split.
  - apply (proj1 (unmatched_statement_unchanged TablePattern_test
                    traverseInsert leafSelect (nestedOrdersRule None)));
      reflexivity.
  - apply (proj2 (unmatched_statement_unchanged TablePattern_test
                    rebuildInsert rebuildSelect (configOf ordersRule None)));
      [reflexivity |].
    intros t [<- | []]. reflexivity.
Defined.
(** Two rules on the same table: the second transformer works on the output
    of the first, so its predicate is conjoined in front of the first one's
    filter. *)
Example plugin_runs_rules_in_order :
  transformQuery TablePattern_test rebuildInsert rebuildSelect rebuildHost
    {| tables := [ordersRule; regionRule];
       options_throwOnUnsupported := None |}
    {| args_node := SelectQuery selectOrdersPaid; args_queryId := "q1" |}
  = Returned
      (SelectQuery
         {| sel_from := sel_from selectOrdersPaid;
            sel_where :=
              Some
                {| where_where :=
                     AndNode (eqNode ordersRef "region" "eu")
                       (AndNode (eqNode ordersRef "tenant_id" "42")
                          (HostFilter "paid")) |};
            sel_rest := sel_rest selectOrdersPaid |}).
Proof. reflexivity. Qed.

(** A throwing transformer ends the run of the plugin. *)
Example plugin_stops_at_unsupported_insert :
  transformQuery TablePattern_test rebuildInsert rebuildSelect rebuildHost
    {| tables := [ordersRule; regionRule];
       options_throwOnUnsupported := None |}
    {| args_node := InsertQuery insertOrdersFromSelect; args_queryId := "q2" |}
  = Thrown UnsupportedConstruct.
Proof. reflexivity. Qed.


(** * Concrete runs of the further properties *)

Lemma insert_conflict_columns_general_witness :
  (rebuildInsert (configOf ordersRule2 None) upsertOrders
   = Returned upsertOrders
   /\ insertTargetMatches TablePattern_test (configOf ordersRule2 None)
        upsertOrders = true
   /\ isValuesNode (ins_values upsertOrders) = true)
  /\ exists result newColumns,
      transformInsertQuery TablePattern_test rebuildInsert
        (configOf ordersRule2 None) upsertOrders = Returned result
      /\ ins_onConflict result
         = Some {| oc_columns := Some newColumns; oc_rest := "do update" |}
      /\ firstn 2 newColumns
         = [{| col_column := {| id_name := "id" |} |};
            {| col_column := {| id_name := "sku" |} |}]
      /\ map (fun c => id_name (col_column c)) (skipn 2 newColumns)
         = ["tenant_id"; "deleted"].
Proof.
  split; [repeat split |].
  destruct (insert_conflict_columns_general TablePattern_test rebuildInsert
              (configOf ordersRule2 None) upsertOrders
              (node := upsertOrders)
              (onConflict :=
                 {| oc_columns :=
                      Some [{| col_column := {| id_name := "id" |} |};
                            {| col_column := {| id_name := "sku" |} |}];
                    oc_rest := "do update" |})
              eq_refl eq_refl eq_refl eq_refl)
    as [result [newColumns [Hres [Hoc [Hold [Hnew _]]]]]].
  exists result, newColumns.
  split; [exact Hres | split; [exact Hoc | split; [exact Hold | exact Hnew]]].
Defined.
Lemma insert_empty_mapping_witness :
  (insertTargetMatches TablePattern_test (configOf emptyRule None)
     upsertOrders = true
   /\ callOrGet (columns emptyRule) (OfInsert upsertOrders) = [])
  /\ transformInsertQuery TablePattern_test rebuildInsert
       (configOf emptyRule None) upsertOrders = Returned upsertOrders
  /\ exists result,
      transformInsertQuery TablePattern_test rebuildInsert
        (configOf emptyRule None) upsertOrdersOnConstraint = Returned result
      /\ ins_onConflict result
         = Some {| oc_columns := Some [];
                   oc_rest := "on constraint, do update" |}
      /\ result <> upsertOrdersOnConstraint.
Proof.
  split; [split; reflexivity |].
  split.
  - apply (proj1 (insert_empty_mapping TablePattern_test rebuildInsert
                    (configOf emptyRule None) upsertOrders
                    (node := upsertOrders)
                    (onConflict :=
                       {| oc_columns :=
                            Some [columnNode "id"; columnNode "sku"];
                          oc_rest := "do update" |})
                    eq_refl eq_refl eq_refl eq_refl eq_refl)).
    discriminate.
  - apply (proj2 (insert_empty_mapping TablePattern_test rebuildInsert
                    (configOf emptyRule None) upsertOrdersOnConstraint
                    (node := upsertOrdersOnConstraint)
                    (onConflict :=
                       {| oc_columns := None;
                          oc_rest := "on constraint, do update" |})
                    eq_refl eq_refl eq_refl eq_refl eq_refl)).
    reflexivity.
Defined.

Lemma insert_twice_duplicates_columns_witness :
  (transformInsertQuery TablePattern_test rebuildInsert
     (configOf ordersRule None) upsertOrders = Returned upsertOrdersOnce
   /\ rebuildInsert (configOf ordersRule None) upsertOrdersOnce
      = Returned upsertOrdersOnce)
  /\ exists twice,
      transformInsertQuery TablePattern_test rebuildInsert
        (configOf ordersRule None) upsertOrdersOnce = Returned twice
      /\ ins_onConflict twice
         = Some
             {| oc_columns :=
                  Some [columnNode "id"; columnNode "sku";
                        columnNode "tenant_id"; columnNode "tenant_id"];
                oc_rest := "do update" |}
      /\ ins_into twice = ins_into upsertOrders
      /\ ins_values twice = ins_values upsertOrders
      /\ ins_rest twice = ins_rest upsertOrders.
Proof.
  split; [split; reflexivity |].
  exact (insert_twice_duplicates_columns TablePattern_test rebuildInsert
           (configOf ordersRule None) upsertOrders
           (node := upsertOrders) (once := upsertOrdersOnce)
           (onConflict :=
              {| oc_columns := Some [columnNode "id"; columnNode "sku"];
                 oc_rest := "do update" |})
           eq_refl eq_refl eq_refl eq_refl eq_refl eq_refl eq_refl).
Defined.

Lemma select_changes_only_where_witness :
  rebuildSelect (configOf ordersRule2 None) selectOrdersPaid
  = Returned selectOrdersPaid
  /\ exists result,
      transformSelectQuery TablePattern_test rebuildSelect
        (configOf ordersRule2 None) selectOrdersPaid = Returned result
      /\ sel_from result = sel_from selectOrdersPaid
      /\ sel_rest result = sel_rest selectOrdersPaid
      /\ conjunctsOf (whereOf result)
         = [eqNode ordersRef "tenant_id" "42";
            eqNode ordersRef "deleted" "false";
            HostFilter "paid"].
Proof.
  split; [reflexivity |].
  exact (select_changes_only_where TablePattern_test rebuildSelect
           (configOf ordersRule2 None) selectOrdersPaid
           (node := selectOrdersPaid) eq_refl).
Defined.

Lemma select_unchanged_iff_nothing_synthesized_witness :
  (rebuildSelect (configOf ordersRule None) selectCustomers
   = Returned selectCustomers
   /\ synthesized TablePattern_test (configOf ordersRule None) selectCustomers
      = [])
  /\ transformSelectQuery TablePattern_test rebuildSelect
       (configOf ordersRule None) selectCustomers = Returned selectCustomers
  /\ transformSelectQuery TablePattern_test rebuildSelect
       (configOf ordersRule None) selectOrders <> Returned selectOrders.
Proof.
  split; [split; reflexivity |].
  split.
  - apply (proj1 (select_unchanged_iff_nothing_synthesized TablePattern_test
                    rebuildSelect (configOf ordersRule None) selectCustomers
                    (node := selectCustomers) eq_refl)).
    reflexivity.
  - intros Hsame.
    apply (proj1 (select_unchanged_iff_nothing_synthesized TablePattern_test
                    rebuildSelect (configOf ordersRule None) selectOrders
                    (node := selectOrders) eq_refl)) in Hsame.
    discriminate Hsame.
Defined.

Lemma select_without_where_witness :
  (rebuildSelect (configOf ordersRule2 None) selectOrders
   = Returned selectOrders
   /\ sel_where selectOrders = None
   /\ synthesized TablePattern_test (configOf ordersRule2 None) selectOrders
      <> [])
  /\ exists filterNode,
      transformSelectQuery TablePattern_test rebuildSelect
        (configOf ordersRule2 None) selectOrders
      = Returned
          {| sel_from := sel_from selectOrders;
             sel_where := Some {| where_where := filterNode |};
             sel_rest := sel_rest selectOrders |}
      /\ AndChain
           (synthesized TablePattern_test (configOf ordersRule2 None)
              selectOrders) filterNode.
Proof.
  split; [split; [reflexivity | split; [reflexivity | discriminate]] |].
  apply (proj2 (select_without_where TablePattern_test rebuildSelect
                  (configOf ordersRule2 None) selectOrders
                  (node := selectOrders) eq_refl eq_refl)).
  discriminate.
Defined.

Lemma plugin_select_accumulates_witness :
  (forall config n, rebuildSelect config n = Returned n)
  /\ exists result,
      transformQuery TablePattern_test rebuildInsert rebuildSelect rebuildHost
        (optionsOf [ordersRule; regionRule] None)
        {| args_node := SelectQuery selectOrdersPaid; args_queryId := "q1" |}
      = Returned (SelectQuery result)
      /\ sel_from result = sel_from selectOrdersPaid
      /\ sel_rest result = sel_rest selectOrdersPaid
      /\ conjunctsOf (whereOf result)
         = [eqNode ordersRef "region" "eu";
            eqNode ordersRef "tenant_id" "42";
            HostFilter "paid"].
Proof.
  split; [reflexivity |].
  apply (plugin_select_accumulates TablePattern_test rebuildInsert
           rebuildSelect rebuildHost
           (optionsOf [ordersRule; regionRule] None)
           {| args_node := SelectQuery selectOrdersPaid;
              args_queryId := "q1" |}
           (node := selectOrdersPaid)).
  - reflexivity.
  - intros d [<- | [<- | []]]; reflexivity.
  - reflexivity.
Defined.

Lemma plugin_insert_throws_iff_witness :
  (forall config n, rebuildInsert config n = Returned n)
  /\ transformQuery TablePattern_test rebuildInsert rebuildSelect rebuildHost
       (optionsOf [customersRule; ordersRule] None)
       {| args_node := InsertQuery insertOrdersFromSelect;
          args_queryId := "q2" |}
     = Thrown UnsupportedConstruct
  /\ (forall e,
        transformQuery TablePattern_test rebuildInsert rebuildSelect
          rebuildHost (optionsOf [customersRule; ordersRule] (Some false))
          {| args_node := InsertQuery insertOrdersFromSelect;
             args_queryId := "q2" |}
        <> Thrown e).
Proof.
  split; [reflexivity |].
  split.
  - apply (proj2 (plugin_insert_throws_iff TablePattern_test rebuildInsert
                    rebuildSelect rebuildHost
                    (optionsOf [customersRule; ordersRule] None)
                    {| args_node := InsertQuery insertOrdersFromSelect;
                       args_queryId := "q2" |}
                    (node := insertOrdersFromSelect) UnsupportedConstruct
                    (fun _ _ => eq_refl) eq_refl)).
    split; [reflexivity | split; [reflexivity | split; [discriminate |]]].
    exists (configOf ordersRule None). split; [right; left |]; reflexivity.
  - intros e Hthrown.
    apply (proj1 (plugin_insert_throws_iff TablePattern_test rebuildInsert
                    rebuildSelect rebuildHost
                    (optionsOf [customersRule; ordersRule] (Some false))
                    {| args_node := InsertQuery insertOrdersFromSelect;
                       args_queryId := "q2" |}
                    (node := insertOrdersFromSelect) e
                    (fun _ _ => eq_refl) eq_refl)) in Hthrown.
    destruct Hthrown as [_ [_ [Hflag _]]]. now apply Hflag.
Defined.

Lemma plugin_insert_accumulates_witness :
  (forall config n, rebuildInsert config n = Returned n)
  /\ transformQuery TablePattern_test rebuildInsert rebuildSelect rebuildHost
       (optionsOf [ordersRule; customersRule; regionRule] None)
       {| args_node := InsertQuery upsertOrders; args_queryId := "q3" |}
     = Returned
         (InsertQuery
            {| ins_into := tableNamed "orders";
               ins_values := Some (ValuesNode "rows");
               ins_onConflict :=
                 Some
                   {| oc_columns :=
                        Some [{| col_column := {| id_name := "id" |} |};
                              {| col_column := {| id_name := "sku" |} |};
                              {| col_column := {| id_name := "tenant_id" |} |};
                              {| col_column := {| id_name := "region" |} |}];
                      oc_rest := "do update" |};
               ins_rest := "columns" |}).
Proof.
  split; [reflexivity |].
  apply (plugin_insert_accumulates TablePattern_test rebuildInsert
           rebuildSelect rebuildHost
           (optionsOf [ordersRule; customersRule; regionRule] None)
           {| args_node := InsertQuery upsertOrders; args_queryId := "q3" |}
           (node := upsertOrders)
           (onConflict :=
              {| oc_columns :=
                   Some [{| col_column := {| id_name := "id" |} |};
                         {| col_column := {| id_name := "sku" |} |}];
                 oc_rest := "do update" |})
           (cs := [{| col_column := {| id_name := "id" |} |};
                   {| col_column := {| id_name := "sku" |} |}])).
  - reflexivity.
  - intros d [<- | [<- | [<- | []]]]; reflexivity.
  - reflexivity.
  - reflexivity.
  - reflexivity.
  - reflexivity.
Defined.


Lemma eqNodes_membership_witness :
  In (FilterNode
        (ReferenceOperand
           {| ref_table := Some shopOrders;
              ref_column := {| col_column := {| id_name := "deleted" |} |} |})
        {| op_operator := "=" |}
        (ValueOperand {| val_value := "false" |}))
    (eqNodes TablePattern_test (configOf shopRule None) selectShop)
  /\ ~ In (FilterNode
             (ReferenceOperand
                {| ref_table := Some customersTable;
                   ref_column :=
                     {| col_column := {| id_name := "tenant_id" |} |} |})
             {| op_operator := "=" |}
             (ValueOperand {| val_value := "42" |}))
         (eqNodes TablePattern_test (configOf shopRule None) selectShop)
  /\ ~ In (FilterNode
             (ReferenceOperand
                {| ref_table := Some (tableNamed "orders");
                   ref_column :=
                     {| col_column := {| id_name := "tenant_id" |} |} |})
             {| op_operator := "=" |}
             (ValueOperand {| val_value := "42" |}))
         (eqNodes TablePattern_test (configOf shopRule None) selectShop).
Proof.
  split; [| split].
  - apply (proj2 (eqNodes_membership TablePattern_test
                    (configOf shopRule None) selectShop _)).
    left. exists shopOrders, ("deleted", "false").
    split; [now left |].
    split; [reflexivity |].
    split; [right; now left | reflexivity].
  - intros Hin.
    apply (proj1 (eqNodes_membership TablePattern_test
                    (configOf shopRule None) selectShop _)) in Hin.
    destruct Hin as [[t [entry [_ [Hm [_ Hp]]]]] | Hw]; [| discriminate Hw].
    injection Hp as Ht _ _. subst t. discriminate Hm.
  - intros Hin.
    apply (proj1 (eqNodes_membership TablePattern_test
                    (configOf shopRule None) selectShop _)) in Hin.
    destruct Hin as [[t [entry [Hfrom [_ [_ Hp]]]]] | Hw]; [| discriminate Hw].
    injection Hp as Ht _ _. subst t.
    destruct Hfrom as [E | [E | [E | [E | []]]]]; discriminate E.
Defined.

(** * Statements that do not come back as they were *)

(** [INSERT INTO customers ... SELECT ... FROM orders] under the rule on
    [orders]: the matcher rejects the target table, and the statement comes
    back with its value source filtered. *)
Lemma unmatched_insert_comes_back_changed :
  insertTargetMatches TablePattern_test (nestedOrdersRule None)
    (insertFromSelect "customers" ordersSource) = false
  /\ transformInsertQuery TablePattern_test traverseInsert
       (nestedOrdersRule None) (insertFromSelect "customers" ordersSource)
     = Returned (insertFromSelect "customers" ordersSourceFiltered)
  /\ transformInsertQuery TablePattern_test traverseInsert
       (nestedOrdersRule None) (insertFromSelect "customers" ordersSource)
     <> Returned (insertFromSelect "customers" ordersSource).
Proof.
  split; [reflexivity | split; [reflexivity |]].
  intros E. vm_compute in E. discriminate E.
Qed.

(** [INSERT INTO orders ... SELECT ... FROM orders] under the rule on
    [orders] with [throwOnUnsupported] false: the value source is not a
    [ValuesNode], nothing is thrown, and the statement comes back with its
    value source filtered. *)
Lemma unsupported_insert_comes_back_changed :
  insertTargetMatches TablePattern_test (nestedOrdersRule (Some false))
    (insertFromSelect "orders" ordersSource) = true
  /\ isValuesNode (ins_values (insertFromSelect "orders" ordersSource)) = false
  /\ transformInsertQuery TablePattern_test traverseInsert
       (nestedOrdersRule (Some false)) (insertFromSelect "orders" ordersSource)
     = Returned (insertFromSelect "orders" ordersSourceFiltered)
  /\ transformInsertQuery TablePattern_test traverseInsert
       (nestedOrdersRule (Some false)) (insertFromSelect "orders" ordersSource)
     <> Returned (insertFromSelect "orders" ordersSource).
Proof.
  split; [reflexivity | split; [reflexivity | split; [reflexivity |]]].
  intros E. vm_compute in E. discriminate E.
Qed.
